(** * The TfL analytics dashboard (dashboard.py)

    A shallow embedding of the data pipeline of the dashboard: the three
    fetchers that normalise upstream JSON into frames, the line filter, the
    per-station worst status behind the map, and the journey planner with its
    per-mode time summary.  Page layout, charts and widget wiring are left
    out.

    Conventions.  A value that came out of [resp.json()] is a [json].  A
    block that may raise is a computation in [res]; [try ... except] is a
    match on it.  Python [str] is [string], read on the ASCII range. *)

From Stdlib Require Import ZArith List String Ascii Bool Lia Floats Permutation.
Import ListNotations.

Set Warnings "-register-all,-inexact-float".
#[local] Open Scope string_scope.
#[local] Open Scope list_scope.

(** ** Python values and the operations the script applies to them *)

Module Py.

Inductive json : Type :=
| JNull
| JBool (b : bool)
| JInt (z : Z)
| JFloat (f : float)
| JStr (s : string)
| JArr (items : list json)
| JObj (fields : list (string * json)).

Inductive exn : Type :=
| KeyError | TypeError | AttributeError | IndexError | ValueError
| ConnectionError | JSONDecodeError.

Inductive res (A : Type) : Type :=
| Ok (a : A)
| Raise (e : exn).
Arguments Ok {A} a.
Arguments Raise {A} e.

Definition bind {A B : Type} (c : res A) (k : A -> res B) : res B :=
  match c with
  | Ok a => k a
  | Raise e => Raise e
  end.

Definition raises {A : Type} (c : res A) : bool :=
  match c with Ok _ => false | Raise _ => true end.

(** [for x in xs: ys.append(f x)], stopping at the first exception. *)
Fixpoint collect {A B : Type} (f : A -> res B) (xs : list A) : res (list B) :=
  match xs with
  | [] => Ok []
  | x :: rest =>
      bind (f x) (fun y => bind (collect f rest) (fun ys => Ok (y :: ys)))
  end.

Fixpoint lookup (fields : list (string * json)) (key : string) : option json :=
  match fields with
  | [] => None
  | (k, v) :: rest => if String.eqb k key then Some v else lookup rest key
  end.

(** [x.get(key, default)]: only a dict has [get]. *)
Definition get (x : json) (key : string) (default : json) : res json :=
  match x with
  | JObj fields =>
      Ok (match lookup fields key with Some v => v | None => default end)
  | _ => Raise AttributeError
  end.

(** [x[key]] with a string key. *)
Definition item (x : json) (key : string) : res json :=
  match x with
  | JObj fields =>
      match lookup fields key with Some v => Ok v | None => Raise KeyError end
  | _ => Raise TypeError
  end.

(** [x[0]]. *)
Definition first (x : json) : res json :=
  match x with
  | JArr (v :: _) => Ok v
  | JArr [] => Raise IndexError
  | JStr (String c _) => Ok (JStr (String c EmptyString))
  | JStr EmptyString => Raise IndexError
  | JObj _ => Raise KeyError
  | _ => Raise TypeError
  end.

Fixpoint chars (s : string) : list json :=
  match s with
  | EmptyString => []
  | String c rest => JStr (String c EmptyString) :: chars rest
  end.

(** [for v in x]: a list yields its items, a dict its keys, a string its
    characters; anything else is not iterable. *)
Definition iter (x : json) : res (list json) :=
  match x with
  | JArr items => Ok items
  | JObj fields => Ok (map (fun kv => JStr (fst kv)) fields)
  | JStr s => Ok (chars s)
  | _ => Raise TypeError
  end.

(** Truth value, as in [if x] and [not x]. *)
Definition truthy (x : json) : bool :=
  match x with
  | JNull => false
  | JBool b => b
  | JInt z => negb (Z.eqb z 0)
  | JFloat f => negb (PrimFloat.eqb f 0%float)
  | JStr s => negb (String.eqb s "")
  | JArr items => match items with [] => false | _ :: _ => true end
  | JObj fields => match fields with [] => false | _ :: _ => true end
  end.

(** [x is None]. *)
Definition is_none (x : json) : bool :=
  match x with JNull => true | _ => false end.

(** [x == lit] for a string literal [lit]. *)
Definition eq_str (x : json) (lit : string) : bool :=
  match x with JStr s => String.eqb s lit | _ => false end.

Definition is_upper (c : ascii) : bool :=
  (Nat.leb 65 (nat_of_ascii c) && Nat.leb (nat_of_ascii c) 90)%bool.

Definition is_lower (c : ascii) : bool :=
  (Nat.leb 97 (nat_of_ascii c) && Nat.leb (nat_of_ascii c) 122)%bool.

Definition to_lower (c : ascii) : ascii :=
  if is_upper c then ascii_of_nat (nat_of_ascii c + 32) else c.

Definition to_upper (c : ascii) : ascii :=
  if is_lower c then ascii_of_nat (nat_of_ascii c - 32) else c.

(** [s.lower()]. *)
Fixpoint lower (s : string) : string :=
  match s with
  | EmptyString => EmptyString
  | String c rest => String (to_lower c) (lower rest)
  end.

(** [s.capitalize()]: first character upper case, the rest lower case. *)
Definition capitalize (s : string) : string :=
  match s with
  | EmptyString => EmptyString
  | String c rest => String (to_upper c) (lower rest)
  end.

End Py.

Import Py.

Notation "x <- c ;; k" := (bind c (fun x => k))
  (at level 61, c at next level, right associativity).

(** ** Frames

    A [pd.DataFrame] as its column labels and its rows.  Built from a list of
    records it takes the labels from the records, so an empty list gives a
    frame with no columns; [pd.DataFrame(columns=...)] gives the labelled
    empty frame. *)

Record frame (R : Type) : Type := mkFrame {
  columns : list string;
  rows : list R
}.
Arguments mkFrame {R} columns rows.
Arguments columns {R} f.
Arguments rows {R} f.

Definition DataFrame {R : Type} (labels : list string) (records : list R) : frame R :=
  match records with
  | [] => mkFrame [] []
  | _ :: _ => mkFrame labels records
  end.

Definition DataFrame_columns {R : Type} (labels : list string) : frame R :=
  mkFrame labels [].

(** ** The upstream API *)

Definition API_BASE : string := "https://api.tfl.gov.uk".

(** What [requests.get(url)] gives: it raises, or there is a response with a
    status code whose body [.json()] decodes ([None] when it is not JSON). *)
Inductive http_reply : Type :=
| Unreachable
| Response (status_code : Z) (body : option json).

Definition network : Type := string -> http_reply.

Definition requests_get (net : network) (url : string) : res http_reply :=
  match net url with
  | Unreachable => Raise ConnectionError
  | r => Ok r
  end.

Definition response_json (r : http_reply) : res json :=
  match r with
  | Response _ (Some v) => Ok v
  | _ => Raise JSONDecodeError
  end.

Definition status_code_of (r : http_reply) : Z :=
  match r with
  | Response code _ => code
  | Unreachable => 0%Z
  end.

(** [f"{api_key}"] where [API_KEY = os.getenv("TFL_KEY")] may be [None]. *)
Definition show_key (api_key : option string) : string :=
  match api_key with Some k => k | None => "None" end.

(** ** Fetchers *)

Module Fetcher.

(** One row of [stations_df]; the cells are whatever the upstream sent. *)
Record station_row : Type := mkStationRow {
  station_name : json;
  lat : json;
  lon : json;
  naptanId : json;
  lines : list json
}.

Record line_row : Type := mkLineRow {
  line_id : json;
  line_name : json;
  status : json
}.

Record bus_row : Type := mkBusRow {
  route_name : json;
  bus_status : json;
  reason : json
}.

Definition station_columns : list string :=
  ["station_name"; "lat"; "lon"; "naptanId"; "lines"].
Definition line_columns : list string := ["line_id"; "line_name"; "status"].
Definition bus_columns : list string := ["route_name"; "status"; "reason"].

(** [[line["name"] for line in stop.get("lines", [])]] *)
Definition line_names (stop : json) : res (list json) :=
  ls <- get stop "lines" (JArr []) ;;
  items <- iter ls ;;
  collect (fun line => item line "name") items.

(** The body of the loop over stop points: [None] for [continue]. *)
Definition station_of_stop (stop : json) : res (option station_row) :=
  ty <- get stop "stopType" JNull ;;
  if negb (eq_str ty "NaptanMetroStation") then Ok None else
  la <- get stop "lat" JNull ;;
  lo <- get stop "lon" JNull ;;
  naptan <- get stop "naptanId" JNull ;;
  if is_none la || is_none lo || negb (truthy naptan) then Ok None else
  name <- get stop "commonName" JNull ;;
  names <- line_names stop ;;
  Ok (Some (mkStationRow name la lo naptan names)).

Definition appended {A : Type} (kept : list (option A)) : list A :=
  flat_map (fun o => match o with Some a => [a] | None => [] end) kept.

Definition stations_url (api_key : option string) (mode : string) : string :=
  API_BASE ++ "/StopPoint/Mode/" ++ mode ++ "?app_key=" ++ show_key api_key.

(** The body of the loop over modes. *)
Definition stations_of_mode (net : network) (api_key : option string)
    (mode : string) : res (list station_row) :=
  resp <- requests_get net (stations_url api_key mode) ;;
  if negb (Z.eqb (status_code_of resp) 200) then Ok [] else
  data <- response_json resp ;;
  stops <- get data "stopPoints" (JArr []) ;;
  stops <- iter stops ;;
  kept <- collect station_of_stop stops ;;
  Ok (appended kept).

Definition modes : list string := ["tube"].

Definition fetch_stations (net : network) (api_key : option string)
    : res (frame station_row) :=
  per_mode <- collect (stations_of_mode net api_key) modes ;;
  Ok (DataFrame station_columns (List.concat per_mode)).

Definition disruptions_url : string :=
  API_BASE ++ "/Line/Mode/tube,overground,dlr,river-bus/Status".

Definition line_of_record (line : json) : res line_row :=
  id <- item line "id" ;;
  name <- item line "name" ;;
  statuses <- item line "lineStatuses" ;;
  st0 <- first statuses ;;
  desc <- item st0 "statusSeverityDescription" ;;
  Ok (mkLineRow id name desc).

(** The [try] block of [fetch_disruptions]. *)
Definition fetch_disruptions_try (net : network) : res (frame line_row) :=
  response <- requests_get net disruptions_url ;;
  data <- response_json response ;;
  records <- iter data ;;
  disruptions <- collect line_of_record records ;;
  Ok (DataFrame line_columns disruptions).

Definition fetch_disruptions (net : network) : frame line_row :=
  match fetch_disruptions_try net with
  | Ok df => df
  | Raise _ => DataFrame_columns line_columns
  end.

Definition bus_url (api_key : option string) : string :=
  API_BASE ++ "/Line/Mode/bus/Status?app_key=" ++ show_key api_key.

Definition bus_of_record (line : json) : res bus_row :=
  line_statuses <- get line "lineStatuses" (JArr []) ;;
  status_desc <-
    (if truthy line_statuses
     then st0 <- first line_statuses ;; item st0 "statusSeverityDescription"
     else Ok (JStr "Good Service")) ;;
  why <-
    (if truthy line_statuses
     then st0 <- first line_statuses ;; get st0 "reason" (JStr "")
     else Ok (JStr "")) ;;
  name <- item line "name" ;;
  Ok (mkBusRow name status_desc why).

(** The [try] block of [fetch_bus_disruptions]. *)
Definition fetch_bus_disruptions_try (net : network)
    (api_key : option string) : res (frame bus_row) :=
  response <- requests_get net (bus_url api_key) ;;
  data <- response_json response ;;
  records <- iter data ;;
  disruptions <- collect bus_of_record records ;;
  Ok (DataFrame bus_columns disruptions).

Definition fetch_bus_disruptions (net : network) (api_key : option string)
    : frame bus_row :=
  match fetch_bus_disruptions_try net api_key with
  | Ok df => df
  | Raise _ => DataFrame_columns bus_columns
  end.

End Fetcher.

(** ** The frames as the views read them

    The derived views compare cells with string literals and with each
    other; they are modelled on frames whose cells have the types of the
    data model: names, identifiers and statuses are strings. *)

Record LineStatus : Type := mkLineStatus {
  line_id : string;
  line_name : string;
  status : string
}.

Record Station : Type := mkStation {
  station_name : string;
  lat : float;
  lon : float;
  naptanId : string;
  lines : list string
}.

(** [values.isin(selection)] on one cell. *)
Definition isin (cell : string) (selection : list string) : bool :=
  existsb (String.eqb cell) selection.

(** ** Line and status filters *)

Definition filter_mask (selected_lines status_filter : list string)
    (row : LineStatus) : bool :=
  (match selected_lines with
   | [] => true
   | _ :: _ => isin (line_name row) selected_lines
   end)
  && isin (status row) status_filter.

Definition filtered_df (df : frame LineStatus)
    (selected_lines status_filter : list string) : frame LineStatus :=
  mkFrame (columns df) (filter (filter_mask selected_lines status_filter) (rows df)).

(** ** Map of station statuses *)

Definition STATUS_COLOR : list (string * string) :=
  [ ("Good Service", "green");
    ("Minor Delays", "orange");
    ("Severe Delays", "red");
    ("Part Closure", "darkred") ].

Fixpoint dict_get {V : Type} (d : list (string * V)) (key : string) (default : V) : V :=
  match d with
  | [] => default
  | (k, v) :: rest => if String.eqb k key then v else dict_get rest key default
  end.

(** [line_row = df[df['line_name'] == line]], then
    [line_row['status'].values[0]] when [line_row] is not empty. *)
Definition line_row (df : frame LineStatus) (line : string) : list LineStatus :=
  filter (fun row => String.eqb (line_name row) line) (rows df).

Definition line_status (df : frame LineStatus) (line : string) : option string :=
  match line_row df line with
  | [] => None
  | row :: _ => Some (status row)
  end.

(** The update inside the loop over [lines_here]. *)
Definition worst_update (worst_status line_status : string) : string :=
  if String.eqb line_status "Severe Delays"
     || (negb (String.eqb worst_status "Severe Delays")
         && negb (String.eqb line_status "Good Service"))
  then line_status
  else worst_status.

(** One turn of the loop over [lines_here]. *)
Definition scan_line (df : frame LineStatus) (worst_status line : string) : string :=
  match line_status df line with
  | Some st => worst_update worst_status st
  | None => worst_status
  end.

(** [worst_status] after the loop over [lines_here], started from
    "Good Service". *)
Definition worst_status (df : frame LineStatus) (lines_here : list string) : string :=
  fold_left (scan_line df) lines_here "Good Service".

Record marker : Type := mkMarker {
  location : float * float;
  radius : Z;
  color : string;
  popup : string
}.

Definition popup_html (df : frame LineStatus) (station : Station) : string :=
  fold_left
    (fun html line =>
       (html ++ line ++ ": "
             ++ match line_status df line with Some st => st | None => "Unknown" end
             ++ "<br>")%string)
    (lines station)
    ("<b>" ++ station_name station ++ "</b><br><b>Lines:</b><br>")%string.

(** What the loop body adds to the cluster once the guard is passed. *)
Definition circle_marker (df : frame LineStatus) (station : Station) : marker :=
  mkMarker (lat station, lon station)
           (5 + Z.of_nat (List.length (lines station)))
           (dict_get STATUS_COLOR (worst_status df (lines station)) "gray")
           (popup_html df station).

(** One turn of the loop over [stations_df.iterrows()]. *)
Definition station_marker (df : frame LineStatus) (station : Station) : option marker :=
  match lines station with
  | [] => None
  | _ :: _ => Some (circle_marker df station)
  end.

Definition map_markers (stations_df : frame Station) (df : frame LineStatus)
    : list marker :=
  flat_map
    (fun station =>
       match station_marker df station with Some m => [m] | None => [] end)
    (rows stations_df).

(** ** Journey planner *)

(** [get_naptan]: the identifier of the first station whose name matches,
    case-insensitively. *)
Definition get_naptan (stations_df : frame Station) (name : string) : option string :=
  match
    filter (fun row => String.eqb (lower (station_name row)) (lower name))
           (rows stations_df)
  with
  | [] => None
  | row :: _ => Some (naptanId row)
  end.

(** A [datetime]: the wall clock in microseconds since the start of the
    calendar, and the UTC offset in microseconds of an aware value. *)
Record datetime : Type := mkDatetime {
  wall : Z;
  utcoffset : option Z
}.

(** The two computations the script leaves to the [datetime] module and to
    binary64 arithmetic: [datetime.fromisoformat] on a string ([None] when it
    raises [ValueError]), and [int(td.total_seconds() / 60)] as a function of
    the microseconds of the timedelta [td]. *)
Class Clock : Type := mkClock {
  fromisoformat : string -> option datetime;
  int_minutes : Z -> Z
}.

(** [datetime.fromisoformat(x)] on whatever [leg.get] returned. *)
Definition py_fromisoformat `{Clock} (x : json) : res datetime :=
  match x with
  | JStr s =>
      match fromisoformat s with
      | Some dt => Ok dt
      | None => Raise ValueError
      end
  | _ => Raise TypeError
  end.

(** [a - b] in microseconds; a naive and an aware value do not subtract. *)
Definition datetime_sub (a b : datetime) : res Z :=
  match utcoffset a, utcoffset b with
  | None, None => Ok (wall a - wall b)%Z
  | Some oa, Some ob => Ok ((wall a - oa) - (wall b - ob))%Z
  | _, _ => Raise TypeError
  end.

Definition digit (n : Z) : ascii := ascii_of_nat (48 + Z.to_nat n).

Definition two_digits (n : Z) : string :=
  String (digit (n / 10)) (String (digit (n mod 10)) EmptyString).

(** [dt.strftime("%H:%M")] *)
Definition strftime_HM (dt : datetime) : string :=
  (two_digits ((wall dt / 3600000000) mod 24) ++ ":"
   ++ two_digits ((wall dt / 60000000) mod 60))%string.

Definition format_time `{Clock} (ts_str : json) : json :=
  match py_fromisoformat ts_str with
  | Ok dt => JStr (strftime_HM dt)
  | Raise _ => ts_str
  end.

Definition ICON : list (string * string) :=
  [ ("Walking", "🚶"); ("Bus", "🚌"); ("Tube", "🚇");
    ("Dlr", "🚈"); ("Overground", "🚆"); ("Elizabeth-line", "🚆") ].

(** The bullet the loop prints for a leg: the parts of the f-string. *)
Record leg_line : Type := mkLegLine {
  icon : string;
  mode : string;
  shown_line : option json;
  dep : json;
  arr : json;
  disruption_text : option json
}.

(** [leg.get("mode", {}).get("name", "Unknown").capitalize()] *)
Definition leg_mode (leg : json) : res string :=
  m <- get leg "mode" (JObj []) ;;
  n <- get m "name" (JStr "Unknown") ;;
  match n with
  | JStr s => Ok (capitalize s)
  | _ => Raise AttributeError
  end.

(** The leg loop from its first statement to [st.markdown]. *)
Definition render_leg `{Clock} (leg : json) : res leg_line :=
  mode <- leg_mode leg ;;
  l <- get leg "line" (JObj []) ;;
  line_name <- get l "name" (JStr "") ;;
  d <- get leg "departureTime" (JStr "") ;;
  a <- get leg "arrivalTime" (JStr "") ;;
  disruption <- get leg "disruption" (JArr []) ;;
  text <-
    (if truthy disruption
     then d0 <- first disruption ;;
          descr <- get d0 "description" (JStr "") ;;
          Ok (Some descr)
     else Ok None) ;;
  Ok (mkLegLine (dict_get ICON mode "") mode
                (if truthy line_name then Some line_name else None)
                (format_time d) (format_time a) text).

(** The inner [try] block: the whole minutes of a leg. *)
Definition leg_minutes `{Clock} (leg : json) : res Z :=
  d <- get leg "departureTime" JNull ;;
  dep_dt <- py_fromisoformat d ;;
  a <- get leg "arrivalTime" JNull ;;
  arr_dt <- py_fromisoformat a ;;
  td <- datetime_sub arr_dt dep_dt ;;
  Ok (int_minutes td).

(** [d[key] = value] on a dict kept in insertion order. *)
Fixpoint dict_set {V : Type} (d : list (string * V)) (key : string) (value : V)
    : list (string * V) :=
  match d with
  | [] => [(key, value)]
  | (k, v) :: rest =>
      if String.eqb k key then (k, value) :: rest
      else (k, v) :: dict_set rest key value
  end.

(** The inner [try ... except: pass]. *)
Definition add_minutes `{Clock} (mode_times : list (string * Z)) (mode : string)
    (leg : json) : list (string * Z) :=
  match leg_minutes leg with
  | Ok minutes => dict_set mode_times mode (dict_get mode_times mode 0 + minutes)%Z
  | Raise _ => mode_times
  end.

(** The loop over the legs of one journey: the bullets printed so far, and
    the [mode_times] reached or the exception that ended the loop. *)
Fixpoint render_legs `{Clock} (legs : list json) (mode_times : list (string * Z))
    : list leg_line * res (list (string * Z)) :=
  match legs with
  | [] => ([], Ok mode_times)
  | leg :: rest =>
      match render_leg leg with
      | Raise e => ([], Raise e)
      | Ok bullet =>
          let '(bullets, r) := render_legs rest (add_minutes mode_times (mode bullet) leg) in
          (bullet :: bullets, r)
      end
  end.

(** [mode_times] of one journey when its loop ends. *)
Definition mode_times `{Clock} (journey : json) : res (list (string * Z)) :=
  legs <- get journey "legs" (JArr []) ;;
  legs <- iter legs ;;
  snd (render_legs legs []).

(** What the planner section puts on the page. *)
Inductive ui_event : Type :=
| Info (msg : string)
| Error (msg : string)
| RequestFailed (e : exn)
| Heading (option_number : nat) (duration : json)
| Bullet (line : leg_line)
| ModeSummary (summary : list (string * Z))
| Rule.

(** One turn of the loop over [enumerate(journeys)]: what was printed, and
    whether the turn ended or raised. *)
Definition render_journey `{Clock} (i : nat) (journey : json)
    : list ui_event * res unit :=
  match get journey "duration" (JStr "Unknown") with
  | Raise e => ([], Raise e)
  | Ok duration =>
      match (legs <- get journey "legs" (JArr []) ;; iter legs) with
      | Raise e => ([Heading (i + 1) duration], Raise e)
      | Ok legs =>
          let '(bullets, r) := render_legs legs [] in
          match r with
          | Raise e => (Heading (i + 1) duration :: map Bullet bullets, Raise e)
          | Ok times =>
              (Heading (i + 1) duration :: map Bullet bullets
                 ++ match times with [] => [] | _ :: _ => [ModeSummary times] end
                 ++ [Rule],
               Ok tt)
          end
      end
  end.

Fixpoint render_journeys `{Clock} (i : nat) (journeys : list json)
    : list ui_event * res unit :=
  match journeys with
  | [] => ([], Ok tt)
  | journey :: rest =>
      match render_journey i journey with
      | (out, Raise e) => (out, Raise e)
      | (out, Ok _) =>
          let '(more, r) := render_journeys (S i) rest in (out ++ more, r)
      end
  end.

(** [f"{naptan}"] for what [get_naptan] returned. *)
Definition show_naptan (naptan : option string) : string :=
  match naptan with Some id => id | None => "None" end.

Definition journey_url (api_key start_naptan end_naptan : option string) : string :=
  API_BASE ++ "/Journey/JourneyResults/" ++ show_naptan start_naptan
           ++ "/to/" ++ show_naptan end_naptan ++ "?app_key=" ++ show_key api_key.

(** A run of the planner section: the URLs it requested, in order, and what
    it showed. *)
Record planner_run : Type := mkRun {
  requested : list string;
  shown : list ui_event
}.

(** The [try] block after the request was sent and answered. *)
Definition show_journeys `{Clock} (resp : http_reply) : list ui_event * res unit :=
  if Z.eqb (status_code_of resp) 200 then
    match (data <- response_json resp ;; get data "journeys" (JArr [])) with
    | Raise e => ([], Raise e)
    | Ok journeys =>
        if truthy journeys then
          match iter journeys with
          | Raise e => ([], Raise e)
          | Ok js => render_journeys 0 js
          end
        else ([Info "No journeys found for these stations."], Ok tt)
    end
  else ([Error "Error fetching journey data from TfL API."], Ok tt).

(** The [else] branch: the request and its [try ... except Exception]. *)
Definition plan_journey `{Clock} (net : network)
    (api_key start_naptan end_naptan : option string) : planner_run :=
  let url := journey_url api_key start_naptan end_naptan in
  match requests_get net url with
  | Raise e => mkRun [url] [RequestFailed e]
  | Ok resp =>
      match show_journeys resp with
      | (out, Ok _) => mkRun [url] out
      | (out, Raise e) => mkRun [url] (out ++ [RequestFailed e])
      end
  end.

(** Truth value of a select box: nothing selected, or an empty name, is
    false. *)
Definition chosen (input : option string) : bool :=
  match input with
  | Some name => negb (String.eqb name "")
  | None => false
  end.

Definition naptan_eqb (a b : option string) : bool :=
  match a, b with
  | Some x, Some y => String.eqb x y
  | None, None => true
  | _, _ => false
  end.

Definition journey_planner `{Clock} (net : network) (api_key : option string)
    (stations_df : frame Station) (start_input end_input : option string)
    : planner_run :=
  match start_input, end_input with
  | Some start_name, Some end_name =>
      if chosen start_input && chosen end_input then
        let start_naptan := get_naptan stations_df start_name in
        let end_naptan := get_naptan stations_df end_name in
        if naptan_eqb start_naptan end_naptan
        then mkRun [] [Info "Start and end stations are the same."]
        else plan_journey net api_key start_naptan end_naptan
      else mkRun [] []
  | _, _ => mkRun [] []
  end.

(** A clock for the timestamps of the journey API,
    [YYYY-MM-DDTHH:MM:SS]: naive values, and whole minutes by exact
    truncation, which is what binary64 gives on whole seconds. *)
Module IsoClock.

Definition digit_value (c : ascii) : option Z :=
  let n := nat_of_ascii c in
  if Nat.leb 48 n && Nat.leb n 57 then Some (Z.of_nat (n - 48)) else None.

Fixpoint number (acc : Z) (cs : list ascii) : option Z :=
  match cs with
  | [] => Some acc
  | c :: rest =>
      match digit_value c with
      | Some d => number (acc * 10 + d)%Z rest
      | None => None
      end
  end.

(** Days from 0001-01-01 of a date of the proleptic Gregorian calendar. *)
Definition days_from_civil (y m d : Z) : Z :=
  let y' := (if m <=? 2 then y - 1 else y)%Z in
  let era := (y' / 400)%Z in
  let yoe := (y' - era * 400)%Z in
  let mp := ((m + 9) mod 12)%Z in
  let doy := ((153 * mp + 2) / 5 + d - 1)%Z in
  let doe := (yoe * 365 + yoe / 4 - yoe / 100 + doy)%Z in
  (era * 146097 + doe - 306)%Z.

Definition in_range (lo x hi : Z) : bool := ((lo <=? x) && (x <=? hi))%Z.

Definition parse (s : string) : option datetime :=
  match list_ascii_of_string s with
  | [y1; y2; y3; y4; s1; m1; m2; s2; d1; d2; t; h1; h2; c1; n1; n2; c2; e1; e2] =>
      if Ascii.eqb s1 "-" && Ascii.eqb s2 "-" && Ascii.eqb t "T"
         && Ascii.eqb c1 ":" && Ascii.eqb c2 ":"
      then
        match number 0 [y1; y2; y3; y4], number 0 [m1; m2], number 0 [d1; d2],
              number 0 [h1; h2], number 0 [n1; n2], number 0 [e1; e2] with
        | Some y, Some m, Some d, Some h, Some n, Some e =>
            if in_range 1 y 9999 && in_range 1 m 12 && in_range 1 d 31
               && in_range 0 h 23 && in_range 0 n 59 && in_range 0 e 59
            then Some (mkDatetime
                         ((((days_from_civil y m d * 24 + h) * 60 + n) * 60 + e)
                          * 1000000)%Z
                         None)
            else None
        | _, _, _, _, _, _ => None
        end
      else None
  | _ => None
  end.

Definition clock : Clock := mkClock parse (fun us => Z.quot us 60000000).

End IsoClock.

(** ** Vocabulary of the properties

    What the statements below say about the code above: the statuses a
    scan meets, the records a fetcher can read, the filtering rule of the
    stations, the mode and the minutes of a leg.  Each group comes with the
    sample data its statements are tried on. *)

(** *** Station statuses *)

(** The statuses the scan of a station meets, in the station's line order:
    lines without a row in [df] are not met. *)
Definition observed (df : frame LineStatus) (lines_here : list string) : list string :=
  flat_map
    (fun line => match line_status df line with Some st => [st] | None => [] end)
    lines_here.

Definition disrupted (st : string) : bool := negb (String.eqb st "Good Service").

Definition first_non_good (df : frame LineStatus) (lines_here : list string) : string :=
  hd "Good Service" (filter disrupted (observed df lines_here)).

Definition last_non_good (df : frame LineStatus) (lines_here : list string) : string :=
  last (filter disrupted (observed df lines_here)) "Good Service".

Definition known (df : frame LineStatus) (line : string) : bool :=
  match line_status df line with Some _ => true | None => false end.

Module Sample.

Definition labelled (records : list LineStatus) : frame LineStatus :=
  DataFrame ["line_id"; "line_name"; "status"] records.

(** A refresh with one severe, one minor and one closed line. *)
Definition df : frame LineStatus :=
  labelled
    [ mkLineStatus "central" "Central" "Good Service";
      mkLineStatus "victoria" "Victoria" "Minor Delays";
      mkLineStatus "district" "District" "Part Closure";
      mkLineStatus "jubilee" "Jubilee" "Severe Delays";
      mkLineStatus "bakerloo" "Bakerloo" "Good Service" ].

Definition oxford_circus : Station :=
  mkStation "Oxford Circus Underground Station" 51.515224%float (-0.141903)%float
            "940GZZLUOXC" ["Bakerloo"; "Central"; "Victoria"].

Definition westminster : Station :=
  mkStation "Westminster Underground Station" 51.50132%float (-0.124861)%float
            "940GZZLUWSM" ["Circle"; "District"; "Jubilee"].

Definition victoria : Station :=
  mkStation "Victoria Underground Station" 51.496359%float (-0.143102)%float
            "940GZZLUVIC" ["Victoria"; "Circle"; "District"].

(** A station the upstream lists without any line. *)
Definition closed_stop : Station :=
  mkStation "Aldwych" 51.5123%float (-0.1158)%float "940GZZLUADW" [].

Definition stations_df : frame Station :=
  DataFrame ["station_name"; "lat"; "lon"; "naptanId"; "lines"]
            [oxford_circus; westminster; closed_stop; victoria].

End Sample.

(** *** Line-status records *)

(** A record of the line-status response that [line_of_record] can read:
    an object with [id], [name] and a [lineStatuses] whose first entry is an
    object with [statusSeverityDescription]. *)
Definition has_line_fields (record : json) : bool :=
match record with
| JObj fields =>
    match lookup fields "id", lookup fields "name", lookup fields "lineStatuses" with
    | Some _, Some _, Some statuses =>
        match first statuses with
        | Ok (JObj entry) =>
            match lookup entry "statusSeverityDescription" with
            | Some _ => true
            | None => false
            end
        | _ => false
        end
    | _, _, _ => false
    end
| _ => false
end.

Module Upstream.

Definition line_record (id name description : string) : json :=
JObj [ ("id", JStr id); ("name", JStr name);
       ("lineStatuses",
        JArr [JObj [("statusSeverity", JInt 10);
                    ("statusSeverityDescription", JStr description)]]) ].

Definition central : json := line_record "central" "Central" "Good Service".
Definition jubilee : json := line_record "jubilee" "Jubilee" "Severe Delays".

(** A record that lost its [id]. *)
Definition without_id : json :=
JObj [ ("name", JStr "Victoria");
       ("lineStatuses",
        JArr [JObj [("statusSeverityDescription", JStr "Minor Delays")]]) ].

Definition answering (code : Z) (body : json) : network :=
fun _ => Response code (Some body).

(** A gateway answering 503 with an empty JSON object. *)
Definition gateway_error : network := answering 503 (JObj []).

(** A 500 answer that still carries a line list. *)
Definition failing_with_lines : network := answering 500 (JArr [central; jubilee]).

(** A 200 answer with one unreadable record among readable ones. *)
Definition one_bad_record : network := answering 200 (JArr [central; without_id; jubilee]).

Definition all_readable : network := answering 200 (JArr [central; jubilee]).

End Upstream.

(** *** Stop points *)

(** The value of a field of an upstream record, [None] when it is absent. *)
Definition field (record : json) (key : string) : json :=
match record with
| JObj fields =>
    match lookup fields key with Some v => v | None => JNull end
| _ => JNull
end.

Definition is_record (x : json) : bool :=
match x with JObj _ => true | _ => false end.

(** The filtering rule of the stations: the metro-station stop type, both
    coordinates present, and an identifier that is present and not empty. *)
Definition is_metro_station (stop : json) : bool :=
eq_str (field stop "stopType") "NaptanMetroStation".

Definition has_position (stop : json) : bool :=
negb (is_none (field stop "lat")) && negb (is_none (field stop "lon")).

Definition has_identifier (stop : json) : bool :=
truthy (field stop "naptanId").

Definition kept (stop : json) : bool :=
is_metro_station stop && has_position stop && has_identifier stop.

(** The names of a list of line entries, when each entry is an object with
    a [name]. *)
Fixpoint names_of (entries : list json) : option (list json) :=
match entries with
| [] => Some []
| JObj fields :: rest =>
    match lookup fields "name", names_of rest with
    | Some name, Some names => Some (name :: names)
    | _, _ => None
    end
| _ :: _ => None
end.

(** The line names of a stop: none when it has no [lines], undefined when
    [lines] is not a list of named entries. *)
Definition line_list (stop : json) : option (list json) :=
match stop with
| JObj fields =>
    match lookup fields "lines" with
    | None => Some []
    | Some (JArr entries) => names_of entries
    | Some _ => None
    end
| _ => None
end.

(** A stop the loop can process: an object, and if the filtering rule keeps
    it, one whose lines all carry a name. *)
Definition readable (stop : json) : bool :=
is_record stop
&& (negb (kept stop)
    || match line_list stop with Some _ => true | None => false end).

Definition row_of_stop (stop : json) (names : list json) : Fetcher.station_row :=
Fetcher.mkStationRow (field stop "commonName") (field stop "lat")
                     (field stop "lon") (field stop "naptanId") names.

(** The rows of the stops the filtering rule keeps, in upstream order. *)
Definition survivors (stops : list json) : list Fetcher.station_row :=
flat_map
  (fun stop =>
     if kept stop then
       match line_list stop with
       | Some names => [row_of_stop stop names]
       | None => []
       end
     else [])
  stops.

Module StopPoints.

Definition stop (stop_type name : string) (position : list (string * json))
    (naptan : json) (entries : list json) : json :=
JObj ([ ("stopType", JStr stop_type); ("commonName", JStr name) ]
        ++ position
        ++ [ ("naptanId", naptan); ("lines", JArr entries) ]).

Definition at_position (la lo : float) : list (string * json) :=
[ ("lat", JFloat la); ("lon", JFloat lo) ].

Definition line (id name : string) : json :=
JObj [ ("id", JStr id); ("name", JStr name) ].

Definition bank : json :=
stop "NaptanMetroStation" "Bank Underground Station"
     (at_position 51.513395 (-0.089095)) (JStr "940GZZLUBNK")
     [line "central" "Central"; line "northern" "Northern"].

(** A bus stop: another stop type. *)
Definition bus_stop : json :=
stop "NaptanPublicBusCoachTram" "Bank Station / Queen Victoria Street"
     (at_position 51.5127 (-0.0906)) (JStr "490000013E") [line "26" "26"].

(** A metro station the upstream lists without coordinates. *)
Definition unplaced : json :=
stop "NaptanMetroStation" "Heathrow Terminal 5" [] (JStr "940GZZLUHR5")
     [line "piccadilly" "Piccadilly"].

(** A metro station with an empty identifier. *)
Definition anonymous : json :=
stop "NaptanMetroStation" "Test Station" (at_position 51.5 (-0.125)) (JStr "")
     [line "circle" "Circle"].

(** A metro station with every required field, one of whose lines has no
    [name]. *)
Definition unnamed_line : json :=
stop "NaptanMetroStation" "Oxford Circus Underground Station"
     (at_position 51.515224 (-0.141903)) (JStr "940GZZLUOXC")
     [line "victoria" "Victoria"; JObj [("id", JStr "central")]].

Definition answering (stops : list json) : network :=
fun _ => Response 200 (Some (JObj [("stopPoints", JArr stops)])).

End StopPoints.

(** *** Journey legs *)

(** A leg of the journey API as the leg loop reads it: an object whose
    [mode], when present, is an object with a string [name] or none, whose
    [line], when present, is an object, and whose [disruption], when present
    and not empty, is a list that starts with an object. *)
Definition api_leg (leg : json) : bool :=
match leg with
| JObj fields =>
    match lookup fields "mode" with
    | None => true
    | Some (JObj m) =>
        match lookup m "name" with
        | None | Some (JStr _) => true
        | Some _ => false
        end
    | Some _ => false
    end
    && match lookup fields "line" with
       | None | Some (JObj _) => true
       | Some _ => false
       end
    && match lookup fields "disruption" with
       | None => true
       | Some d =>
           negb (truthy d)
           || match d with JArr (JObj _ :: _) => true | _ => false end
       end
| _ => false
end.

(** The transport mode of a leg: its mode name, capitalised, and "Unknown"
    without one. *)
Definition mode_of (leg : json) : string :=
match field (field leg "mode") "name" with
| JStr name => capitalize name
| _ => "Unknown"
end.

(** The duration of a leg in minutes, from departure to arrival; zero when
    a timestamp cannot be parsed or the two do not subtract. *)
Definition minutes_of `{Clock} (leg : json) : Z :=
match leg_minutes leg with
| Ok minutes => minutes
| Raise _ => 0%Z
end.

(** A leg whose two timestamps parse and subtract. *)
Definition timed `{Clock} (leg : json) : bool := negb (raises (leg_minutes leg)).

Definition mode_total `{Clock} (m : string) (legs : list json) : Z :=
fold_right Z.add 0%Z
  (map minutes_of (filter (fun leg => String.eqb (mode_of leg) m) legs)).

(** The dictionary the leg loop reaches from [times] when every leg is
    filed under its mode. *)
Definition summed `{Clock} (legs : list json) (times : list (string * Z))
    : list (string * Z) :=
fold_left (fun acc leg => add_minutes acc (mode_of leg) leg) legs times.

Module Journeys.

Definition leg (mode_name : string) (departure arrival : string) : json :=
JObj [ ("mode", JObj [("id", JStr mode_name); ("name", JStr mode_name)]);
       ("departureTime", JStr departure);
       ("arrivalTime", JStr arrival) ].

(** Two bus legs of 10 and 15 minutes and a walk of 5 minutes. *)
Definition bus_bus_walk : json :=
JObj [ ("duration", JInt 30);
       ("legs",
        JArr [ leg "bus" "2024-05-01T10:00:00" "2024-05-01T10:10:00";
               leg "bus" "2024-05-01T10:10:00" "2024-05-01T10:25:00";
               leg "walking" "2024-05-01T10:25:00" "2024-05-01T10:30:00" ]) ].

(** A tube leg of 12 minutes, and a walk whose departure cannot be parsed. *)
Definition unparsable_walk : json :=
JObj [ ("duration", JInt 20);
       ("legs",
        JArr [ leg "tube" "2024-05-01T23:55:00" "2024-05-02T00:07:00";
               leg "walking" "soon" "2024-05-02T00:15:00" ]) ].

End Journeys.

(** ** Further sections of the page *)

(** *** Network summary *)

Definition TUBE_LINES : list string :=
  [ "Bakerloo"; "Central"; "Circle"; "District";
    "Hammersmith & City"; "Jubilee"; "Metropolitan";
    "Northern"; "Piccadilly"; "Victoria"; "Waterloo & City" ].


(** [any(line in names for line in lines)] *)
Definition any_in (names lines_here : list string) : bool :=
  existsb (fun line => isin line names) lines_here.



Definition tube_df (df : frame LineStatus) : frame LineStatus :=
  mkFrame (columns df)
          (filter (fun row => isin (line_name row) TUBE_LINES) (rows df)).

(** [set(tube_df[tube_df['status'] != "Good Service"]["line_name"])], a set
    kept as a list without repetition. *)
Definition disrupted_lines (df : frame LineStatus) : list string :=
  nodup string_dec
    (map line_name
         (filter (fun row => negb (String.eqb (status row) "Good Service"))
                 (rows (tube_df df)))).




(** *** Filters, selected lines and alerts *)

(** [series.unique()]: the distinct cells in order of first appearance. *)
Fixpoint unique_after (seen cells : list string) : list string :=
  match cells with
  | [] => []
  | cell :: rest =>
      if isin cell seen then unique_after seen rest
      else cell :: unique_after (cell :: seen) rest
  end.

Definition unique (cells : list string) : list string := unique_after [] cells.

(** The options, and the default, of the status multiselect. *)
Definition status_options (df : frame LineStatus) : list string :=
  unique (map status (rows df)).

(** [st.success], [st.warning] and [st.error] with their text. *)
Inductive banner : Type :=
| st_success (text : string)
| st_warning (text : string)
| st_error (text : string).



(** [disruptions = filtered_df[filtered_df['status'] != "Good Service"]] *)
Definition disruptions (filtered : frame LineStatus) : list LineStatus :=
  filter (fun row => negb (String.eqb (status row) "Good Service")) (rows filtered).

(** The "Disruption Alerts" section. *)
Definition disruption_alerts (filtered : frame LineStatus) : list banner :=
  match disruptions filtered with
  | [] => [st_success "✅ All selected lines are running with Good Service."]
  | shown =>
      map (fun row => st_warning ("⚠️ " ++ line_name row ++ ": " ++ status row)) shown
  end.

(** *** Bus table style *)

Definition color_status (val : string) : string :=
  if String.eqb val "Good Service" then "background-color: #d4edda; color: #155724;"
  else if String.eqb val "Minor Delays" then "background-color: #fff3cd; color: #856404;"
  else if String.eqb val "Severe Delays" then "background-color: #f8d7da; color: #721c24;"
  else if String.eqb val "Part Closure" then "background-color: #FFA500; color: #000000;"
  else "".

(** *** Disruption by transport mode *)





(** *** What the planner printed *)

Definition headings (out : list ui_event) : list nat :=
  flat_map (fun ev => match ev with Heading n _ => [n] | _ => [] end) out.

Definition is_failure (ev : ui_event) : bool :=
  match ev with RequestFailed _ | Error _ => true | _ => false end.







(** *** Bus-status records *)

(** A record of the bus-status response that [bus_of_record] can read: an
    object with a [name] whose [lineStatuses] is absent, empty, or a list
    that starts with an object with [statusSeverityDescription]. *)
Definition bus_readable (record : json) : bool :=
  match record with
  | JObj fields =>
      match lookup fields "name" with
      | Some _ =>
          match lookup fields "lineStatuses" with
          | None => true
          | Some statuses =>
              negb (truthy statuses)
              || match statuses with
                 | JArr (JObj entry :: _) =>
                     match lookup entry "statusSeverityDescription" with
                     | Some _ => true
                     | None => false
                     end
                 | _ => false
                 end
          end
      | None => false
      end
  | _ => false
  end.

(** The row of a bus record: the status and reason of its first line
    status, and "Good Service" with an empty reason without one. *)
Definition bus_row_of (record : json) : Fetcher.bus_row :=
  match field record "lineStatuses" with
  | JArr (JObj entry :: _) =>
      Fetcher.mkBusRow (field record "name")
        (field (JObj entry) "statusSeverityDescription")
        (match lookup entry "reason" with Some why => why | None => JStr "" end)
  | _ => Fetcher.mkBusRow (field record "name") (JStr "Good Service") (JStr "")
  end.

Module Buses.

Definition route (name : string) (statuses : list json) : json :=
  JObj [ ("id", JStr name); ("name", JStr name); ("lineStatuses", JArr statuses) ].

Definition diverted : json :=
  route "26" [JObj [ ("statusSeverityDescription", JStr "Special Service");
                     ("reason", JStr "Route 26 is on diversion.") ]].

(** A route whose status entry has no reason. *)
Definition delayed : json :=
  route "73" [JObj [("statusSeverityDescription", JStr "Minor Delays")]].

(** A route without any status entry, and one without the field. *)
Definition quiet : json := route "N5" [].
Definition bare : json := JObj [("name", JStr "390")].

Definition answering (records : list json) : network :=
  fun _ => Response 200 (Some (JArr records)).

End Buses.





(** An event that is not a failure message. *)
Definition quiet (ev : ui_event) : bool := negb (is_failure ev).






(** ** Properties of the station map *)

Lemma last_cons_default {A : Type} (x d : A) (l : list A) :
  last (x :: l) d = last l x.
Proof.
  revert x d. induction l as [| y l IH]; intros x d; [reflexivity |].
  change (last (x :: y :: l) d) with (last (y :: l) d).
  rewrite (IH y d), (IH y x). reflexivity.
Qed.

Section WorstStatus.

Variable df : frame LineStatus.

Lemma worst_update_severe_l (st : string) :
  worst_update "Severe Delays" st = "Severe Delays".
Proof.
  unfold worst_update.
  destruct (String.eqb_spec st "Severe Delays") as [-> | _]; reflexivity.
Qed.

Lemma worst_update_severe_r (worst : string) :
  worst_update worst "Severe Delays" = "Severe Delays".
Proof. reflexivity. Qed.

Lemma worst_update_mild (worst st : string) :
  worst <> "Severe Delays" -> st <> "Severe Delays" ->
  worst_update worst st = if disrupted st then st else worst.
Proof.
  intros Hw Hs. unfold worst_update, disrupted.
  apply String.eqb_neq in Hw. apply String.eqb_neq in Hs.
  rewrite Hw, Hs. reflexivity.
Qed.

Lemma scan_severe_absorbs (lines_here : list string) :
  fold_left (scan_line df) lines_here "Severe Delays" = "Severe Delays".
Proof.
  induction lines_here as [| line rest IH]; simpl; [reflexivity |].
  unfold scan_line at 2. destruct (line_status df line) as [st |].
  - rewrite worst_update_severe_l. exact IH.
  - exact IH.
Qed.

Lemma scan_meets_severe (lines_here : list string) (worst line : string) :
  In line lines_here ->
  line_status df line = Some "Severe Delays" ->
  fold_left (scan_line df) lines_here worst = "Severe Delays".
Proof.
  revert worst.
  induction lines_here as [| l rest IH]; intros worst Hin Hst; [contradiction |].
  simpl. destruct Hin as [-> | Hin].
  - unfold scan_line at 2. rewrite Hst, worst_update_severe_r.
    apply scan_severe_absorbs.
  - apply IH; assumption.
Qed.

Lemma scan_mild (lines_here : list string) (worst : string) :
  worst <> "Severe Delays" ->
  (forall line, In line lines_here ->
                line_status df line <> Some "Severe Delays") ->
  fold_left (scan_line df) lines_here worst
  = last (filter disrupted (observed df lines_here)) worst.
Proof.
  revert worst.
  induction lines_here as [| l rest IH]; intros worst Hw Hno; [reflexivity |].
  simpl. unfold scan_line at 2.
  assert (Hrest : forall line, In line rest ->
                               line_status df line <> Some "Severe Delays")
    by (intros line Hin; apply Hno; right; exact Hin).
  destruct (line_status df l) as [st |] eqn:Hl.
  - assert (Hst : st <> "Severe Delays")
      by (intros ->; apply (Hno l); [left; reflexivity | exact Hl]).
    rewrite worst_update_mild by assumption.
    rewrite filter_app. simpl.
    destruct (disrupted st) eqn:Hd.
    + change ([st] ++ filter disrupted (observed df rest))
        with (st :: filter disrupted (observed df rest)).
      rewrite last_cons_default. apply IH; assumption.
    + apply IH; assumption.
  - simpl. apply IH; assumption.
Qed.

Lemma scan_range (lines_here : list string) (worst : string) :
  fold_left (scan_line df) lines_here worst = worst
  \/ In (fold_left (scan_line df) lines_here worst) (observed df lines_here).
Proof.
  revert worst.
  induction lines_here as [| l rest IH]; intros worst; [left; reflexivity |].
  simpl. unfold scan_line at 2 4.
  destruct (line_status df l) as [st |] eqn:Hl; simpl.
  - destruct (IH (worst_update worst st)) as [Heq | Hin].
    + rewrite Heq. unfold worst_update.
      destruct (_ || _); [right; left; reflexivity | left; reflexivity].
    + right. right. exact Hin.
  - apply IH.
Qed.

Lemma scan_skips_unknown (lines_here : list string) (worst : string) :
  fold_left (scan_line df) (filter (known df) lines_here) worst
  = fold_left (scan_line df) lines_here worst.
Proof.
  revert worst.
  induction lines_here as [| l rest IH]; intros worst; [reflexivity |].
  simpl. unfold known at 1, scan_line at 3.
  destruct (line_status df l) as [st |] eqn:Hl; simpl.
  - unfold scan_line at 2. rewrite Hl. apply IH.
  - apply IH.
Qed.

End WorstStatus.

(** C1.  If some line of the station has current status "Severe Delays",
    the worst status of the station is "Severe Delays", whatever the other
    lines report and in whatever order the lines are scanned. *)
Theorem worst_status_severe_wins (df : frame LineStatus)
    (lines_here scanned : list string) (line : string) :
  Permutation lines_here scanned ->
  In line lines_here ->
  line_status df line = Some "Severe Delays" ->
  worst_status df scanned = "Severe Delays".
Proof.
  intros Hperm Hin Hst. unfold worst_status.
  apply (scan_meets_severe df scanned "Good Service" line).
  - apply (Permutation_in line Hperm Hin).
  - exact Hst.
Qed.

(** At Westminster, scanned from the Jubilee line first. *)
Lemma worst_status_severe_wins_witness :
  Permutation ["Circle"; "District"; "Jubilee"] ["Jubilee"; "Circle"; "District"]
  /\ In "Jubilee" ["Circle"; "District"; "Jubilee"]
  /\ line_status Sample.df "Jubilee" = Some "Severe Delays"
  /\ worst_status Sample.df ["Jubilee"; "Circle"; "District"] = "Severe Delays".
Proof.
  assert (Hperm : Permutation ["Circle"; "District"; "Jubilee"]
                              ["Jubilee"; "Circle"; "District"]).
  { apply Permutation_sym.
    apply (Permutation_cons_app ["Circle"; "District"] [] "Jubilee").
    rewrite app_nil_r. apply Permutation_refl. }
  assert (Hin : In "Jubilee" ["Circle"; "District"; "Jubilee"])
    by (right; right; left; reflexivity).
  split; [exact Hperm |]. split; [exact Hin |]. split; [reflexivity |].
  exact (worst_status_severe_wins Sample.df _ _ "Jubilee" Hperm Hin eq_refl).
Defined.

(** C2, as the specification words it, fails: with "Minor Delays" met
    before "Part Closure" and no severe line, the scan ends on
    "Part Closure", not on the first disrupted status. *)
Lemma worst_status_not_first_non_good :
  forallb (fun line => negb (match line_status Sample.df line with
                             | Some st => String.eqb st "Severe Delays"
                             | None => false
                             end))
          (lines Sample.victoria) = true
  /\ first_non_good Sample.df (lines Sample.victoria) = "Minor Delays"
  /\ worst_status Sample.df (lines Sample.victoria) = "Part Closure".
Proof. repeat split. Qed.

(** C2, amended.  Without a severe line, the worst status is the last
    status other than "Good Service" met in the station's line order, and
    "Good Service" when every status met is "Good Service"; lines without
    a row in the line-status collection do not change the result. *)
Theorem worst_status_last_non_good (df : frame LineStatus)
    (lines_here : list string) :
  (forall line, In line lines_here ->
                line_status df line <> Some "Severe Delays") ->
  worst_status df lines_here = last_non_good df lines_here
  /\ (filter disrupted (observed df lines_here) = [] ->
      worst_status df lines_here = "Good Service")
  /\ worst_status df (filter (known df) lines_here) = worst_status df lines_here.
Proof.
  intros Hno.
  assert (Hlast : worst_status df lines_here = last_non_good df lines_here).
  { unfold worst_status, last_non_good.
    apply (scan_mild df lines_here "Good Service"); [discriminate | exact Hno]. }
  split; [exact Hlast |]. split.
  - intros Hnone. rewrite Hlast. unfold last_non_good. rewrite Hnone. reflexivity.
  - unfold worst_status. apply (scan_skips_unknown df lines_here "Good Service").
Qed.

(** At Victoria, where no line is severe. *)
Lemma worst_status_last_non_good_witness :
  worst_status Sample.df (lines Sample.victoria)
  = last_non_good Sample.df (lines Sample.victoria)
  /\ last_non_good Sample.df (lines Sample.victoria) = "Part Closure".
Proof.
  split; [| reflexivity].
  apply (worst_status_last_non_good Sample.df (lines Sample.victoria)).
  intros line [<- | [<- | [<- | []]]]; discriminate.
Defined.

(** C3.  The worst status is "Good Service" or one of the statuses met
    among the station's lines; it is "Good Service" for a station without
    lines and for a station none of whose lines has a row in the
    line-status collection. *)
Theorem worst_status_range (df : frame LineStatus) (lines_here : list string) :
  (worst_status df lines_here = "Good Service"
   \/ In (worst_status df lines_here) (observed df lines_here))
  /\ worst_status df [] = "Good Service"
  /\ ((forall line, In line lines_here -> line_status df line = None) ->
      worst_status df lines_here = "Good Service").
Proof.
  assert (Hrange : worst_status df lines_here = "Good Service"
                   \/ In (worst_status df lines_here) (observed df lines_here))
    by (unfold worst_status; apply (scan_range df lines_here "Good Service")).
  split; [exact Hrange |]. split; [reflexivity |].
  intros Hnone. destruct Hrange as [Hgood | Hin]; [exact Hgood |].
  exfalso. unfold observed in Hin. apply in_flat_map in Hin.
  destruct Hin as [line [Hline Hst]].
  rewrite (Hnone line Hline) in Hst. exact Hst.
Qed.

(** At a station whose lines have no row in the refresh. *)
Lemma worst_status_range_witness :
  (forall line, In line ["Thameslink"; "Tram"] ->
                line_status Sample.df line = None)
  /\ worst_status Sample.df ["Thameslink"; "Tram"] = "Good Service".
Proof.
  assert (Hnone : forall line, In line ["Thameslink"; "Tram"] ->
                               line_status Sample.df line = None)
    by (intros line [<- | [<- | []]]; reflexivity).
  split; [exact Hnone |].
  exact (proj2 (proj2 (worst_status_range Sample.df ["Thameslink"; "Tram"])) Hnone).
Defined.

(** C10.  A station without lines gets no marker: its turn of the map loop
    ends at the guard, and the markers of the map are exactly those of the
    stations that have lines, in order. *)
Theorem no_marker_without_lines (stations_df : frame Station)
    (df : frame LineStatus) :
  (forall station, lines station = [] -> station_marker df station = None)
  /\ map_markers stations_df df
     = map (circle_marker df)
           (filter (fun station => negb (Nat.eqb (List.length (lines station)) 0))
                   (rows stations_df)).
Proof.
  split.
  - intros station Hempty. unfold station_marker. rewrite Hempty. reflexivity.
  - unfold map_markers.
    induction (rows stations_df) as [| station rest IH]; [reflexivity |].
    simpl. rewrite IH. unfold station_marker.
    destruct (lines station); reflexivity.
Qed.

(** Four stations, one of them without lines: three markers. *)
Lemma no_marker_without_lines_witness :
  lines Sample.closed_stop = []
  /\ station_marker Sample.df Sample.closed_stop = None
  /\ List.length (map_markers Sample.stations_df Sample.df) = 3.
Proof.
  split; [reflexivity |]. split; [| reflexivity].
  exact (proj1 (no_marker_without_lines Sample.stations_df Sample.df)
               Sample.closed_stop eq_refl).
Defined.

(** ** Properties of the line filter *)

Lemma isin_In (cell : string) (selection : list string) :
  isin cell selection = true <-> In cell selection.
Proof.
  unfold isin. rewrite existsb_exists. split.
  - intros [x [Hin Heq]]. apply String.eqb_eq in Heq. subst x. exact Hin.
  - intros Hin. exists cell. split; [exact Hin | apply String.eqb_refl].
Qed.

(** C5.  The filtered frame holds exactly the rows whose line name is
    selected (every row when no line is selected) and whose status is among
    the selected statuses, in the order of the input; with no status
    selected it is empty, whatever the input. *)
Theorem filtered_df_exact (df : frame LineStatus)
    (selected_lines status_filter : list string) :
  (forall row,
      In row (rows (filtered_df df selected_lines status_filter))
      <-> In row (rows df)
          /\ (selected_lines = [] \/ In (line_name row) selected_lines)
          /\ In (status row) status_filter)
  /\ (exists keep,
         rows (filtered_df df selected_lines status_filter) = filter keep (rows df))
  /\ rows (filtered_df df selected_lines []) = []
  /\ columns (filtered_df df selected_lines status_filter) = columns df.
Proof.
  split; [| split; [| split]].
  - intros row. unfold filtered_df. simpl. rewrite filter_In.
    unfold filter_mask. rewrite andb_true_iff, isin_In.
    destruct selected_lines as [| l sel].
    + split.
      * intros [Hin [_ Hst]]. auto.
      * intros [Hin [_ Hst]]. auto.
    + rewrite isin_In. split.
      * intros [Hin [Hl Hst]]. auto.
      * intros [Hin [[Hnil | Hl] Hst]]; [discriminate | auto].
  - exists (filter_mask selected_lines status_filter). reflexivity.
  - unfold filtered_df. simpl.
    induction (rows df) as [| row rest IH]; [reflexivity |].
    simpl. unfold filter_mask at 1. simpl. rewrite andb_false_r. exact IH.
  - reflexivity.
Qed.

(** ** Properties of the journey planner *)

Lemma naptan_eqb_refl (a : option string) : naptan_eqb a a = true.
Proof. destruct a; [apply String.eqb_refl | reflexivity]. Qed.

(** C9.  When both select boxes hold a station and the two resolve to the
    same identifier, the planner shows the "same station" message and
    requests nothing. *)
Theorem same_station_no_request `{Clock} (net : network) (api_key : option string)
    (stations_df : frame Station) (start_name end_name : string) :
  chosen (Some start_name) = true ->
  chosen (Some end_name) = true ->
  get_naptan stations_df start_name = get_naptan stations_df end_name ->
  journey_planner net api_key stations_df (Some start_name) (Some end_name)
  = mkRun [] [Info "Start and end stations are the same."].
Proof.
  intros Hstart Hend Hsame. unfold journey_planner.
  rewrite Hstart, Hend, Hsame, naptan_eqb_refl. reflexivity.
Qed.

(** Two spellings of one station, on a network that is down. *)
Lemma same_station_no_request_witness :
  get_naptan Sample.stations_df "Westminster Underground Station"
  = get_naptan Sample.stations_df "westminster underground station"
  /\ requested
       (@journey_planner IsoClock.clock (fun _ => Unreachable) None
          Sample.stations_df
          (Some "Westminster Underground Station")
          (Some "westminster underground station"))
     = [].
Proof.
  split; [reflexivity |].
  rewrite (@same_station_no_request IsoClock.clock (fun _ => Unreachable) None
             Sample.stations_df
             "Westminster Underground Station" "westminster underground station"
             eq_refl eq_refl eq_refl).
  reflexivity.
Defined.

(** ** Properties of the fetchers *)

Section Collect.

Context {A B : Type} (f : A -> res B).

Lemma collect_raises (xs : list A) (x : A) :
  In x xs -> raises (f x) = true -> raises (collect f xs) = true.
Proof.
  induction xs as [| y rest IH]; intros Hin Hx; [contradiction |].
  simpl. destruct (f y) as [b | e] eqn:Hy; simpl; [| reflexivity].
  destruct Hin as [-> | Hin].
  - rewrite Hy in Hx. discriminate.
  - specialize (IH Hin Hx).
    destruct (collect f rest); simpl in *; [discriminate | reflexivity].
Qed.

Lemma collect_ok (xs : list A) :
  (forall x, In x xs -> raises (f x) = false) ->
  exists ys, collect f xs = Ok ys /\ Forall2 (fun x y => f x = Ok y) xs ys.
Proof.
  induction xs as [| x rest IH]; intros Hall.
  - exists []. split; [reflexivity | constructor].
  - destruct IH as [ys [Hys Hrel]].
    { intros y Hy. apply Hall. right. exact Hy. }
    specialize (Hall x (or_introl eq_refl)).
    destruct (f x) as [b | e] eqn:Hx; [| discriminate].
    exists (b :: ys). split.
    + simpl. rewrite Hx. simpl. rewrite Hys. reflexivity.
    + constructor; assumption.
Qed.

Lemma collected_In (xs : list A) (ys : list B) (x : A) (y : B) :
  Forall2 (fun x y => f x = Ok y) xs ys -> In x xs -> f x = Ok y -> In y ys.
Proof.
  induction 1 as [| x' y' xs' ys' Hhead _ IH]; intros Hin Hx; [contradiction |].
  destruct Hin as [-> | Hin].
  - rewrite Hx in Hhead. injection Hhead as ->. left. reflexivity.
  - right. apply IH; assumption.
Qed.

End Collect.

Lemma line_of_record_raises (record : json) :
  raises (Fetcher.line_of_record record) = negb (has_line_fields record).
Proof.
  unfold Fetcher.line_of_record, has_line_fields.
  destruct record as [| b | z | x | s | items | fields]; try reflexivity.
  simpl.
  destruct (lookup fields "id"); [| reflexivity].
  destruct (lookup fields "name"); [| reflexivity].
  destruct (lookup fields "lineStatuses") as [statuses |]; [| reflexivity].
  simpl. destruct (first statuses) as [entry | e]; [| reflexivity].
  simpl. destruct entry as [| b | z | x | s | items | entry]; try reflexivity.
  simpl. destruct (lookup entry "statusSeverityDescription"); reflexivity.
Qed.

(** What the blanket [except] of [fetch_disruptions] does deliver: a
    request that raises, or a body that is not JSON, gives the labelled
    empty frame. *)
Lemma fetch_disruptions_no_payload (net : network) :
  (net Fetcher.disruptions_url = Unreachable
   \/ exists code, net Fetcher.disruptions_url = Response code None) ->
  Fetcher.fetch_disruptions net = DataFrame_columns Fetcher.line_columns.
Proof.
  unfold Fetcher.fetch_disruptions, Fetcher.fetch_disruptions_try, requests_get.
  intros [Hnet | [code Hnet]]; rewrite Hnet; reflexivity.
Qed.

Lemma fetch_bus_disruptions_no_payload (net : network) (api_key : option string) :
  (net (Fetcher.bus_url api_key) = Unreachable
   \/ exists code, net (Fetcher.bus_url api_key) = Response code None) ->
  Fetcher.fetch_bus_disruptions net api_key = DataFrame_columns Fetcher.bus_columns.
Proof.
  unfold Fetcher.fetch_bus_disruptions, Fetcher.fetch_bus_disruptions_try, requests_get.
  intros [Hnet | [code Hnet]]; rewrite Hnet; reflexivity.
Qed.

(** A record that cannot be read empties the whole frame. *)
Lemma fetch_disruptions_bad_record (net : network) (code : Z)
    (records : list json) (record : json) :
  net Fetcher.disruptions_url = Response code (Some (JArr records)) ->
  In record records ->
  has_line_fields record = false ->
  Fetcher.fetch_disruptions net = DataFrame_columns Fetcher.line_columns.
Proof.
  intros Hnet Hin Hbad.
  unfold Fetcher.fetch_disruptions, Fetcher.fetch_disruptions_try, requests_get.
  rewrite Hnet. simpl.
  assert (Hraise : raises (collect Fetcher.line_of_record records) = true).
  { apply (collect_raises _ records record Hin).
    rewrite line_of_record_raises, Hbad. reflexivity. }
  destruct (collect Fetcher.line_of_record records); [discriminate | reflexivity].
Qed.

(** C6, where the code departs from it.  The status code is never read and
    a payload that iterates zero times skips the [except]: a 503 answer
    with body [{}] gives a frame without any column, for lines and for
    buses alike, and a 500 answer that carries a line list is returned as
    data. *)
Theorem fetchers_miss_failed_responses :
  Fetcher.fetch_disruptions Upstream.gateway_error = mkFrame [] []
  /\ Fetcher.fetch_bus_disruptions Upstream.gateway_error None = mkFrame [] []
  /\ columns (Fetcher.fetch_disruptions Upstream.gateway_error)
     <> Fetcher.line_columns
  /\ columns (Fetcher.fetch_bus_disruptions Upstream.gateway_error None)
     <> Fetcher.bus_columns
  /\ List.length (rows (Fetcher.fetch_disruptions Upstream.failing_with_lines)) = 2.
Proof.
  repeat split; try reflexivity; vm_compute; discriminate.
Qed.

(** C7, as the specification words it, fails: one record without [id]
    among readable ones leaves none of them in the frame. *)
Lemma one_bad_record_empties_frame :
  has_line_fields Upstream.central = true
  /\ Fetcher.line_of_record Upstream.central
     = Ok (Fetcher.mkLineRow (JStr "central") (JStr "Central") (JStr "Good Service"))
  /\ Fetcher.fetch_disruptions Upstream.one_bad_record
     = DataFrame_columns Fetcher.line_columns.
Proof. repeat split. Qed.

(** C7, amended.  For a line-status response that is a list of records:
    when every record can be read, every record is a row of the returned
    frame; when some record cannot, the whole response is discarded and the
    labelled empty frame is returned.  No field is defaulted and no single
    record is left out. *)
Theorem fetch_disruptions_all_or_nothing (net : network) (code : Z)
    (records : list json) :
  net Fetcher.disruptions_url = Response code (Some (JArr records)) ->
  (forallb has_line_fields records = true ->
   forall record row,
     In record records ->
     Fetcher.line_of_record record = Ok row ->
     In row (rows (Fetcher.fetch_disruptions net)))
  /\ (forallb has_line_fields records = false ->
      Fetcher.fetch_disruptions net = DataFrame_columns Fetcher.line_columns).
Proof.
  intros Hnet. split.
  - intros Hall record row Hin Hrow.
    rewrite forallb_forall in Hall.
    destruct (collect_ok Fetcher.line_of_record records) as [ys [Hys Hrel]].
    { intros x Hx. rewrite line_of_record_raises, (Hall x Hx). reflexivity. }
    unfold Fetcher.fetch_disruptions, Fetcher.fetch_disruptions_try, requests_get.
    rewrite Hnet. simpl. rewrite Hys. simpl.
    assert (Hy : In row ys)
      by exact (collected_In Fetcher.line_of_record records ys record row Hrel Hin Hrow).
    destruct ys as [| y rest]; [contradiction | exact Hy].
  - intros Hsome.
    assert (Hbad : exists record, In record records /\ has_line_fields record = false).
    { clear Hnet. induction records as [| r rest IH]; [discriminate |].
      simpl in Hsome. destruct (has_line_fields r) eqn:Hr.
      - destruct (IH Hsome) as [x [Hx Hf]]. exists x. split; [right |]; assumption.
      - exists r. split; [left; reflexivity | exact Hr]. }
    destruct Hbad as [record [Hin Hf]].
    exact (fetch_disruptions_bad_record net code records record Hnet Hin Hf).
Qed.

(** A readable response, and the same with one record without [id]. *)
Lemma fetch_disruptions_all_or_nothing_witness :
  In (Fetcher.mkLineRow (JStr "jubilee") (JStr "Jubilee") (JStr "Severe Delays"))
     (rows (Fetcher.fetch_disruptions Upstream.all_readable))
  /\ Fetcher.fetch_disruptions Upstream.one_bad_record
     = DataFrame_columns Fetcher.line_columns.
Proof.
  split.
  - apply (proj1 (fetch_disruptions_all_or_nothing Upstream.all_readable 200
                    [Upstream.central; Upstream.jubilee] eq_refl)
                 eq_refl Upstream.jubilee).
    + right; left; reflexivity.
    + reflexivity.
  - exact (proj2 (fetch_disruptions_all_or_nothing Upstream.one_bad_record 200
                    [Upstream.central; Upstream.without_id; Upstream.jubilee] eq_refl)
                 eq_refl).
Defined.

Lemma names_of_collect (entries names : list json) :
  names_of entries = Some names ->
  collect (fun line => item line "name") entries = Ok names.
Proof.
  revert names.
  induction entries as [| entry rest IH]; intros names Hnames.
  - injection Hnames as <-. reflexivity.
  - simpl in Hnames.
    destruct entry as [| b | z | x | s | items | fields]; try discriminate.
    destruct (lookup fields "name") as [name |] eqn:Hname; [| discriminate].
    destruct (names_of rest) as [ns |]; [| discriminate].
    injection Hnames as <-.
    simpl. rewrite Hname. simpl. rewrite (IH ns eq_refl). reflexivity.
Qed.

Lemma line_list_line_names (stop : json) (names : list json) :
  line_list stop = Some names -> Fetcher.line_names stop = Ok names.
Proof.
  unfold line_list, Fetcher.line_names.
  destruct stop as [| b | z | x | s | items | fields]; try discriminate.
  simpl. destruct (lookup fields "lines") as [ls |].
  - destruct ls as [| b | z | x | s | entries | fs]; try discriminate.
    simpl. apply names_of_collect.
  - intros Hnames. injection Hnames as <-. reflexivity.
Qed.

(** One turn of the stop loop, on a stop it can process. *)
Lemma station_of_stop_readable (stop : json) :
  readable stop = true ->
  Fetcher.station_of_stop stop
  = Ok (if kept stop then
          match line_list stop with
          | Some names => Some (row_of_stop stop names)
          | None => None
          end
        else None).
Proof.
  unfold readable. intros Hread. apply andb_true_iff in Hread.
  destruct Hread as [Hrec Hlines].
  destruct stop as [| b | z | x | s | items | fields]; try discriminate.
  clear Hrec.
  destruct (line_list (JObj fields)) as [names |] eqn:Hnames.
  - rewrite orb_true_r in Hlines. clear Hlines.
    apply line_list_line_names in Hnames.
    unfold Fetcher.station_of_stop. rewrite Hnames.
    unfold kept, is_metro_station, has_position, has_identifier, row_of_stop.
    simpl.
    destruct (eq_str _ "NaptanMetroStation"); simpl; [| reflexivity].
    destruct (is_none _); simpl; [reflexivity |].
    destruct (is_none _); simpl; [reflexivity |].
    destruct (truthy _); reflexivity.
  - rewrite orb_false_r in Hlines. apply negb_true_iff in Hlines.
    rewrite Hlines.
    unfold kept, is_metro_station, has_position, has_identifier in Hlines.
    unfold Fetcher.station_of_stop. simpl in *.
    destruct (eq_str _ "NaptanMetroStation"); simpl in *; [| reflexivity].
    destruct (is_none _); simpl in *; [reflexivity |].
    destruct (is_none _); simpl in *; [reflexivity |].
    destruct (truthy _); simpl in *; [discriminate | reflexivity].
Qed.

Lemma collect_readable (stops : list json) :
  forallb readable stops = true ->
  bind (collect Fetcher.station_of_stop stops)
       (fun kept_rows => Ok (Fetcher.appended kept_rows))
  = Ok (survivors stops).
Proof.
  induction stops as [| stop rest IH]; intros Hall; [reflexivity |].
  simpl in Hall. apply andb_true_iff in Hall. destruct Hall as [Hstop Hrest].
  specialize (IH Hrest).
  simpl. rewrite (station_of_stop_readable stop Hstop). simpl.
  destruct (collect Fetcher.station_of_stop rest) as [kept_rows |]; [| discriminate].
  simpl in *. injection IH as IH. unfold Fetcher.appended in *. simpl.
  rewrite IH.
  destruct (kept stop); [| reflexivity].
  destruct (line_list stop); reflexivity.
Qed.

(** C8, as the specification words it, fails: a metro station with
    coordinates and identifier, one of whose lines has no [name], does not
    survive, and the failure is not silent: [fetch_stations] raises. *)
Lemma unnamed_line_breaks_fetch_stations :
  kept StopPoints.unnamed_line = true
  /\ Fetcher.fetch_stations
       (StopPoints.answering [StopPoints.bank; StopPoints.unnamed_line]) None
     = Raise KeyError.
Proof. split; reflexivity. Qed.

(** C8, amended.  On a 200 answer whose stop points are objects, the lines
    of each kept stop all carrying a name, [fetch_stations] returns exactly
    the stops that have the metro-station stop type, both coordinates and a
    non-empty identifier, in upstream order, each with its name,
    coordinates and identifier as sent and its lines as the list of their
    names; every other stop is left out without an error. *)
Theorem fetch_stations_keeps_metro_stations (net : network)
    (api_key : option string) (data : json) (stops : list json) :
  net (Fetcher.stations_url api_key "tube") = Response 200 (Some data) ->
  get data "stopPoints" (JArr []) = Ok (JArr stops) ->
  forallb readable stops = true ->
  Fetcher.fetch_stations net api_key
  = Ok (DataFrame Fetcher.station_columns (survivors stops))
  /\ (forall stop, In stop stops -> kept stop = true ->
        exists names,
          line_list stop = Some names
          /\ In (row_of_stop stop names) (survivors stops))
  /\ (forall row, In row (survivors stops) ->
        exists stop names,
          In stop stops /\ kept stop = true
          /\ line_list stop = Some names /\ row = row_of_stop stop names).
Proof.
  intros Hnet Hdata Hread. split; [| split].
  - unfold Fetcher.fetch_stations, Fetcher.modes. simpl collect.
    unfold Fetcher.stations_of_mode, requests_get. rewrite Hnet. simpl.
    rewrite Hdata. simpl.
    rewrite (collect_readable stops Hread). simpl.
    rewrite app_nil_r. reflexivity.
  - intros stop Hin Hkept. rewrite forallb_forall in Hread.
    specialize (Hread stop Hin). unfold readable in Hread.
    rewrite Hkept in Hread. simpl in Hread.
    apply andb_true_iff in Hread. destruct Hread as [_ Hlines].
    destruct (line_list stop) as [names |] eqn:Hnames; [| discriminate].
    exists names. split; [reflexivity |].
    unfold survivors. apply in_flat_map. exists stop. split; [exact Hin |].
    rewrite Hkept, Hnames. left. reflexivity.
  - intros row Hrow. unfold survivors in Hrow. apply in_flat_map in Hrow.
    destruct Hrow as [stop [Hin Hrow]].
    destruct (kept stop) eqn:Hkept; [| contradiction].
    destruct (line_list stop) as [names |] eqn:Hnames; [| contradiction].
    destruct Hrow as [<- | []].
    exists stop, names. repeat split; assumption.
Qed.

(** A bus stop, a metro station, one without coordinates and one with an
    empty identifier: the metro station alone is kept. *)
Lemma fetch_stations_keeps_metro_stations_witness :
  Fetcher.fetch_stations
    (StopPoints.answering
       [StopPoints.bus_stop; StopPoints.bank; StopPoints.unplaced;
        StopPoints.anonymous])
    (Some "key")
  = Ok (DataFrame Fetcher.station_columns
          [Fetcher.mkStationRow (JStr "Bank Underground Station")
             (JFloat 51.513395) (JFloat (-0.089095)) (JStr "940GZZLUBNK")
             [JStr "Central"; JStr "Northern"]]).
Proof.
  exact (proj1 (fetch_stations_keeps_metro_stations
                  (StopPoints.answering
                     [StopPoints.bus_stop; StopPoints.bank; StopPoints.unplaced;
                      StopPoints.anonymous])
                  (Some "key")
                  (JObj [("stopPoints",
                          JArr [StopPoints.bus_stop; StopPoints.bank;
                                StopPoints.unplaced; StopPoints.anonymous])])
                  [StopPoints.bus_stop; StopPoints.bank; StopPoints.unplaced;
                   StopPoints.anonymous]
                  eq_refl eq_refl eq_refl)).
Defined.

(** ** Properties of the mode summary *)

Section Dict.

Context {V : Type}.

Lemma dict_get_set (d : list (string * V)) (key key' : string) (value default : V) :
  dict_get (dict_set d key value) key' default
  = if String.eqb key key' then value else dict_get d key' default.
Proof.
  induction d as [| [k v] rest IH]; simpl.
  - destruct (String.eqb key key'); reflexivity.
  - destruct (String.eqb_spec k key) as [-> | Hk]; simpl.
    + destruct (String.eqb key key'); reflexivity.
    + rewrite IH.
      destruct (String.eqb_spec k key') as [-> | Hk'].
      * apply String.eqb_neq in Hk. rewrite String.eqb_sym, Hk. reflexivity.
      * reflexivity.
Qed.

Lemma dict_set_keys (d : list (string * V)) (key key' : string) (value : V) :
  In key' (map fst (dict_set d key value)) <-> key' = key \/ In key' (map fst d).
Proof.
  induction d as [| [k v] rest IH]; simpl.
  - split; [intros [<- | []]; left; reflexivity | intros [-> | []]; left; reflexivity].
  - destruct (String.eqb_spec k key) as [-> | Hk]; simpl.
    + split; [intros [<- | Hin]; auto | intros [-> | [<- | Hin]]; auto].
    + rewrite IH. split.
      * intros [<- | [-> | Hin]]; auto.
      * intros [-> | [<- | Hin]]; auto.
Qed.

Lemma dict_set_NoDup (d : list (string * V)) (key : string) (value : V) :
  NoDup (map fst d) -> NoDup (map fst (dict_set d key value)).
Proof.
  induction d as [| [k v] rest IH]; simpl; intros Hnd.
  - constructor; [intros [] | constructor].
  - inversion Hnd as [| k' ks Hnotin Hrest]; subst.
    destruct (String.eqb_spec k key) as [-> | Hk]; simpl.
    + constructor; assumption.
    + constructor; [| apply IH; exact Hrest].
      rewrite dict_set_keys. intros [-> | Hin]; [apply Hk; reflexivity | auto].
Qed.

End Dict.

Section ModeTimes.

Context `{Clock}.

Lemma leg_mode_api (leg : json) :
  api_leg leg = true -> leg_mode leg = Ok (mode_of leg).
Proof.
  unfold api_leg, leg_mode, mode_of.
  destruct leg as [| b | z | x | s | items | fields]; try discriminate.
  simpl. intros Hleg.
  apply andb_true_iff in Hleg. destruct Hleg as [Hleg _].
  apply andb_true_iff in Hleg. destruct Hleg as [Hmode _].
  destruct (lookup fields "mode") as [m |]; [| reflexivity].
  destruct m as [| b | z | x | s | items | m]; try discriminate.
  simpl. destruct (lookup m "name") as [n |]; [| reflexivity].
  destruct n; try discriminate. reflexivity.
Qed.

Lemma render_leg_api (leg : json) :
  api_leg leg = true ->
  exists bullet, render_leg leg = Ok bullet /\ mode bullet = mode_of leg.
Proof.
  intros Hleg. unfold render_leg. rewrite (leg_mode_api leg Hleg).
  unfold api_leg in Hleg.
  destruct leg as [| b | z | x | s | items | fields]; try discriminate.
  apply andb_true_iff in Hleg. destruct Hleg as [Hleg Hdis].
  apply andb_true_iff in Hleg. destruct Hleg as [_ Hline].
  simpl.
  destruct (lookup fields "line") as [l |].
  - destruct l as [| b | z | x | s | items | l]; try discriminate.
    simpl.
    destruct (lookup fields "disruption") as [d |]; simpl.
    + destruct (truthy d) eqn:Hd; simpl in Hdis.
      * destruct d as [| b | z | x | s | items | fs]; try discriminate.
        destruct items as [| d0 rest]; [discriminate |].
        destruct d0; try discriminate. simpl. eexists; split; reflexivity.
      * eexists; split; reflexivity.
    + eexists; split; reflexivity.
  - simpl.
    destruct (lookup fields "disruption") as [d |]; simpl.
    + destruct (truthy d) eqn:Hd; simpl in Hdis.
      * destruct d as [| b | z | x | s | items | fs]; try discriminate.
        destruct items as [| d0 rest]; [discriminate |].
        destruct d0; try discriminate. simpl. eexists; split; reflexivity.
      * eexists; split; reflexivity.
    + eexists; split; reflexivity.
Qed.

Lemma render_legs_api (legs : list json) (times : list (string * Z)) :
  forallb api_leg legs = true ->
  snd (render_legs legs times) = Ok (summed legs times).
Proof.
  revert times.
  induction legs as [| leg rest IH]; intros times Hall; [reflexivity |].
  simpl in Hall. apply andb_true_iff in Hall. destruct Hall as [Hleg Hrest].
  destruct (render_leg_api leg Hleg) as [bullet [Hbullet Hmode]].
  simpl. rewrite Hbullet, Hmode.
  specialize (IH (add_minutes times (mode_of leg) leg) Hrest).
  destruct (render_legs rest (add_minutes times (mode_of leg) leg)) as [bullets r].
  exact IH.
Qed.

Lemma add_minutes_get (times : list (string * Z)) (leg : json) (m : string) :
  dict_get (add_minutes times (mode_of leg) leg) m 0%Z
  = (dict_get times m 0 + if String.eqb (mode_of leg) m then minutes_of leg else 0)%Z.
Proof.
  unfold add_minutes, minutes_of.
  destruct (leg_minutes leg) as [minutes | e].
  - rewrite dict_get_set.
    destruct (String.eqb_spec (mode_of leg) m) as [-> | _]; lia.
  - destruct (String.eqb (mode_of leg) m); lia.
Qed.

Lemma summed_get (legs : list json) (times : list (string * Z)) (m : string) :
  dict_get (summed legs times) m 0%Z = (dict_get times m 0 + mode_total m legs)%Z.
Proof.
  revert times.
  induction legs as [| leg rest IH]; intros times.
  - unfold mode_total. simpl. lia.
  - simpl. rewrite IH, add_minutes_get. unfold mode_total. simpl.
    destruct (String.eqb (mode_of leg) m); simpl; lia.
Qed.

Lemma add_minutes_keys (times : list (string * Z)) (leg : json) (m : string) :
  In m (map fst (add_minutes times (mode_of leg) leg))
  <-> In m (map fst times) \/ (mode_of leg = m /\ timed leg = true).
Proof.
  unfold add_minutes, timed.
  destruct (leg_minutes leg) as [minutes | e]; simpl.
  - rewrite dict_set_keys. split.
    + intros [-> | Hin]; auto.
    + intros [Hin | [<- _]]; auto.
  - split; [auto | intros [Hin | [_ Hf]]; [exact Hin | discriminate]].
Qed.

Lemma summed_keys (legs : list json) (times : list (string * Z)) (m : string) :
  In m (map fst (summed legs times))
  <-> In m (map fst times)
      \/ exists leg, In leg legs /\ mode_of leg = m /\ timed leg = true.
Proof.
  revert times.
  induction legs as [| leg rest IH]; intros times; simpl.
  - split; [auto | intros [Hin | [leg [[] _]]]; exact Hin].
  - rewrite IH, add_minutes_keys. split.
    + intros [[Hin | Hleg] | [l [Hl Hrest]]]; auto.
      * right. exists leg. auto.
      * right. exists l. auto.
    + intros [Hin | [l [[<- | Hl] Hrest]]]; auto.
      right. exists l. auto.
Qed.

Lemma summed_NoDup (legs : list json) (times : list (string * Z)) :
  NoDup (map fst times) -> NoDup (map fst (summed legs times)).
Proof.
  revert times.
  induction legs as [| leg rest IH]; intros times Hnd; [exact Hnd |].
  simpl. apply IH. unfold add_minutes.
  destruct (leg_minutes leg); [apply dict_set_NoDup |]; exact Hnd.
Qed.

(** A timestamp that is absent, not a string, or not in ISO format, ends
    the inner [try] block. *)
Lemma leg_minutes_unparsable (leg : json) :
  (match field leg "departureTime" with
   | JStr s => fromisoformat s = None
   | _ => True
   end
   \/ match field leg "arrivalTime" with
      | JStr s => fromisoformat s = None
      | _ => True
      end) ->
  timed leg = false /\ minutes_of leg = 0%Z.
Proof.
  intros Hbad.
  assert (Hraise : raises (leg_minutes leg) = true).
  { unfold leg_minutes.
    destruct leg as [| b | z | x | s | items | fields]; try reflexivity.
    unfold field in Hbad. simpl.
    destruct (lookup fields "departureTime") as [d |]; [| reflexivity].
    unfold py_fromisoformat at 1.
    destruct d as [| b | z | x | s | items | fs]; try reflexivity.
    destruct (fromisoformat s) as [dep_dt |] eqn:Hdep; [| reflexivity].
    simpl.
    destruct (lookup fields "arrivalTime") as [a |]; [| reflexivity].
    unfold py_fromisoformat.
    destruct a as [| b | z | x | s' | items | fs]; try reflexivity.
    destruct (fromisoformat s') as [arr_dt |] eqn:Harr; [| reflexivity].
    destruct Hbad as [Hbad | Hbad]; discriminate. }
  unfold timed, minutes_of.
  destruct (leg_minutes leg); [discriminate | split; reflexivity].
Qed.

(** Two timestamps that parse and subtract give the whole minutes between
    them. *)
Lemma leg_minutes_parsed (leg : json) (d a : string) (dep_dt arr_dt : datetime)
    (td : Z) :
  field leg "departureTime" = JStr d ->
  field leg "arrivalTime" = JStr a ->
  fromisoformat d = Some dep_dt ->
  fromisoformat a = Some arr_dt ->
  datetime_sub arr_dt dep_dt = Ok td ->
  timed leg = true /\ minutes_of leg = int_minutes td.
Proof.
  intros Hd Ha Hdep Harr Htd.
  assert (Hmin : leg_minutes leg = Ok (int_minutes td)).
  { unfold leg_minutes.
    destruct leg as [| b | z | x | s | items | fields]; try discriminate.
    unfold field in Hd, Ha. simpl.
    destruct (lookup fields "departureTime") as [d' |]; [| discriminate].
    subst d'. simpl. rewrite Hdep. simpl.
    destruct (lookup fields "arrivalTime") as [a' |]; [| discriminate].
    subst a'. simpl. rewrite Harr. simpl. rewrite Htd. reflexivity. }
  unfold timed, minutes_of. rewrite Hmin. split; reflexivity.
Qed.

End ModeTimes.

(** C4.  For a journey whose legs have the shape of the journey API, the
    leg loop ends with a dictionary that maps each transport mode to the sum
    of the minutes of the legs of that mode, a mode being a key when one of
    its legs was timed.  The minutes of a leg are those from its departure
    to its arrival; a leg with a timestamp that cannot be parsed adds
    nothing and raises nothing.  Two "Bus" legs of 10 and 15 minutes and a
    "Walking" leg of 5 minutes give {"Bus": 25, "Walking": 5}. *)
Theorem mode_times_sums_by_mode `{Clock} (journey : json) (legs : list json) :
  get journey "legs" (JArr []) = Ok (JArr legs) ->
  forallb api_leg legs = true ->
  (exists times,
      mode_times journey = Ok times
      /\ (forall m, dict_get times m 0%Z = mode_total m legs)
      /\ NoDup (map fst times)
      /\ (forall m, In m (map fst times)
                    <-> exists leg, In leg legs /\ mode_of leg = m /\ timed leg = true))
  /\ (forall leg d a dep_dt arr_dt td,
        field leg "departureTime" = JStr d ->
        field leg "arrivalTime" = JStr a ->
        fromisoformat d = Some dep_dt ->
        fromisoformat a = Some arr_dt ->
        datetime_sub arr_dt dep_dt = Ok td ->
        minutes_of leg = int_minutes td)
  /\ (forall leg,
        (match field leg "departureTime" with
         | JStr s => fromisoformat s = None
         | _ => True
         end
         \/ match field leg "arrivalTime" with
            | JStr s => fromisoformat s = None
            | _ => True
            end) ->
        minutes_of leg = 0%Z)
  /\ @mode_times IsoClock.clock Journeys.bus_bus_walk
     = Ok [("Bus", 25%Z); ("Walking", 5%Z)].
Proof.
  intros Hlegs Hall. split; [| split; [| split; [| reflexivity]]].
  - exists (summed legs []). split; [| split; [| split]].
    + unfold mode_times. rewrite Hlegs. simpl. apply render_legs_api. exact Hall.
    + intros m. rewrite summed_get. reflexivity.
    + apply summed_NoDup. constructor.
    + intros m. rewrite summed_keys. simpl. split.
      * intros [[] | Hleg]. exact Hleg.
      * intros Hleg. right. exact Hleg.
  - intros leg d a dep_dt arr_dt td Hd Ha Hdep Harr Htd.
    exact (proj2 (leg_minutes_parsed leg d a dep_dt arr_dt td Hd Ha Hdep Harr Htd)).
  - intros leg Hbad. exact (proj2 (leg_minutes_unparsable leg Hbad)).
Qed.

(** A journey with a leg that cannot be timed. *)
Lemma mode_times_sums_by_mode_witness :
  @mode_times IsoClock.clock Journeys.unparsable_walk = Ok [("Tube", 12%Z)]
  /\ @mode_total IsoClock.clock "Walking"
       [ Journeys.leg "tube" "2024-05-01T23:55:00" "2024-05-02T00:07:00";
         Journeys.leg "walking" "soon" "2024-05-02T00:15:00" ] = 0%Z
  /\ exists times,
       @mode_times IsoClock.clock Journeys.unparsable_walk = Ok times
       /\ forall m,
            dict_get times m 0%Z
            = @mode_total IsoClock.clock m
                [ Journeys.leg "tube" "2024-05-01T23:55:00" "2024-05-02T00:07:00";
                  Journeys.leg "walking" "soon" "2024-05-02T00:15:00" ].
Proof.
  split; [reflexivity |]. split; [reflexivity |].
  destruct (proj1 (@mode_times_sums_by_mode IsoClock.clock Journeys.unparsable_walk
                     [ Journeys.leg "tube" "2024-05-01T23:55:00" "2024-05-02T00:07:00";
                       Journeys.leg "walking" "soon" "2024-05-02T00:15:00" ]
                     eq_refl eq_refl))
    as [times [Htimes [Hsum _]]].
  exists times. split; [exact Htimes | exact Hsum].
Defined.

(** ** Further properties of the station map *)

Lemma worst_update_good (worst st : string) :
  worst_update worst st = "Good Service"
  <-> worst = "Good Service" /\ st = "Good Service".
Proof.
  unfold worst_update.
  destruct (String.eqb_spec st "Severe Delays") as [-> | Hsev]; simpl.
  - split; [discriminate | intros [_ Hst]; discriminate].
  - destruct (String.eqb_spec worst "Severe Delays") as [-> | Hw]; simpl.
    + split; [discriminate | intros [Hw' _]; discriminate].
    + destruct (String.eqb_spec st "Good Service") as [-> | Hgood]; simpl.
      * split; [intros ->; split; reflexivity | intros [-> _]; reflexivity].
      * split; [intros ->; contradiction | intros [_ ->]; contradiction].
Qed.

Lemma scan_good (df : frame LineStatus) (lines_here : list string) (worst : string) :
  fold_left (scan_line df) lines_here worst = "Good Service"
  <-> worst = "Good Service"
      /\ forall st, In st (observed df lines_here) -> st = "Good Service".
Proof.
  revert worst.
  induction lines_here as [| line rest IH]; intros worst; simpl.
  - split; [intros ->; split; [reflexivity | intros st []] | intros [-> _]; reflexivity].
  - rewrite IH. unfold scan_line at 1.
    destruct (line_status df line) as [st0 |]; simpl.
    + rewrite worst_update_good. split.
      * intros [[Hw Hst0] Hrest]. split; [exact Hw |].
        intros st [<- | Hin]; [exact Hst0 | exact (Hrest st Hin)].
      * intros [Hw Hall]. split; [split; [exact Hw |] |].
        -- apply Hall. left. reflexivity.
        -- intros st Hin. apply Hall. right. exact Hin.
    + reflexivity.
Qed.

Lemma observed_In (df : frame LineStatus) (lines_here : list string) (st : string) :
  In st (observed df lines_here)
  <-> exists line, In line lines_here /\ line_status df line = Some st.
Proof.
  unfold observed. rewrite in_flat_map. split.
  - intros [line [Hin Hst]]. exists line. split; [exact Hin |].
    destruct (line_status df line) as [st0 |]; [| contradiction].
    destruct Hst as [<- | []]. reflexivity.
  - intros [line [Hin Hst]]. exists line. split; [exact Hin |].
    rewrite Hst. left. reflexivity.
Qed.

Lemma worst_status_severe_iff (df : frame LineStatus) (lines_here : list string) :
  worst_status df lines_here = "Severe Delays"
  <-> exists line, In line lines_here /\ line_status df line = Some "Severe Delays".
Proof.
  split.
  - intros Hworst.
    destruct (scan_range df lines_here "Good Service") as [Hgood | Hin].
    + unfold worst_status in Hworst. rewrite Hworst in Hgood. discriminate.
    + unfold worst_status in Hworst. rewrite Hworst in Hin.
      apply observed_In. exact Hin.
  - intros [line [Hin Hst]].
    exact (scan_meets_severe df lines_here "Good Service" line Hin Hst).
Qed.

(** X1.  The worst status of a station is "Good Service" exactly when every
    status met among its lines is "Good Service", and "Severe Delays"
    exactly when one of its lines is severe. *)
Theorem worst_status_extremes (df : frame LineStatus) (lines_here : list string) :
  (worst_status df lines_here = "Good Service"
   <-> forall st, In st (observed df lines_here) -> st = "Good Service")
  /\ (worst_status df lines_here = "Severe Delays"
      <-> exists line,
            In line lines_here /\ line_status df line = Some "Severe Delays").
Proof.
  split; [| apply worst_status_severe_iff].
  unfold worst_status. rewrite scan_good. split.
  - intros [_ Hall]. exact Hall.
  - intros Hall. split; [reflexivity | exact Hall].
Qed.

Ltac by_key key st :=
  destruct (String.eqb_spec key st) as [<- | ?];
  [split; intros Hkey; first [reflexivity | discriminate Hkey] |].

Lemma STATUS_COLOR_red (st : string) :
  dict_get STATUS_COLOR st "gray" = "red" <-> st = "Severe Delays".
Proof.
  unfold STATUS_COLOR. cbn [dict_get].
  by_key "Good Service" st. by_key "Minor Delays" st.
  by_key "Severe Delays" st. by_key "Part Closure" st.
  split; [discriminate | intros ->; contradiction].
Qed.

Lemma STATUS_COLOR_green (st : string) :
  dict_get STATUS_COLOR st "gray" = "green" <-> st = "Good Service".
Proof.
  unfold STATUS_COLOR. cbn [dict_get].
  by_key "Good Service" st. by_key "Minor Delays" st.
  by_key "Severe Delays" st. by_key "Part Closure" st.
  split; [discriminate | intros ->; contradiction].
Qed.

(** X2.  Every marker on the map belongs to a station with lines, has a
    radius of five plus its number of lines, is red exactly when one of the
    station's lines is severe, and green exactly when every status met
    among them is "Good Service". *)
Theorem marker_colour (stations_df : frame Station) (df : frame LineStatus)
    (m : marker) :
  In m (map_markers stations_df df) ->
  exists station,
    In station (rows stations_df)
    /\ lines station <> []
    /\ m = circle_marker df station
    /\ radius m = (5 + Z.of_nat (List.length (lines station)))%Z
    /\ (color m = "red"
        <-> exists line, In line (lines station)
                         /\ line_status df line = Some "Severe Delays")
    /\ (color m = "green"
        <-> forall st, In st (observed df (lines station)) -> st = "Good Service").
Proof.
  unfold map_markers. rewrite in_flat_map.
  intros [station [Hin Hm]]. exists station.
  unfold station_marker in Hm.
  destruct (lines station) as [| l ls] eqn:Hlines; [contradiction |].
  destruct Hm as [<- | []].
  split; [exact Hin |]. split; [discriminate |].
  split; [reflexivity |]. split; [simpl; rewrite Hlines; reflexivity |].
  rewrite <- Hlines.
  change (color (circle_marker df station))
    with (dict_get STATUS_COLOR (worst_status df (lines station)) "gray").
  split.
  - rewrite STATUS_COLOR_red. apply worst_status_severe_iff.
  - rewrite STATUS_COLOR_green. unfold worst_status. rewrite scan_good. split.
    + intros [_ Hall]. exact Hall.
    + intros Hall. split; [reflexivity | exact Hall].
Qed.

(** Westminster is on the Jubilee line, which is severe. *)
Lemma marker_colour_witness :
  In (circle_marker Sample.df Sample.westminster)
     (map_markers Sample.stations_df Sample.df)
  /\ color (circle_marker Sample.df Sample.westminster) = "red"
  /\ exists station,
       In station (rows Sample.stations_df)
       /\ circle_marker Sample.df Sample.westminster = circle_marker Sample.df station.
Proof.
  assert (Hin : In (circle_marker Sample.df Sample.westminster)
                   (map_markers Sample.stations_df Sample.df))
    by (right; left; reflexivity).
  split; [exact Hin |]. split; [reflexivity |].
  destruct (marker_colour Sample.stations_df Sample.df _ Hin)
    as [station [Hst [_ [Heq _]]]].
  exists station. split; [exact Hst | exact Heq].
Defined.

(** ** Properties of the network summary *)

Lemma any_in_exists (names lines_here : list string) :
  any_in names lines_here = true
  <-> exists line, In line lines_here /\ In line names.
Proof.
  unfold any_in. rewrite existsb_exists.
  split; intros [line [Hin Hname]]; exists line; split;
    try exact Hin; apply isin_In; exact Hname.
Qed.




Lemma disrupted_lines_In (df : frame LineStatus) (line : string) :
  In line (disrupted_lines df)
  <-> In line TUBE_LINES
      /\ exists row, In row (rows df) /\ line_name row = line
                     /\ status row <> "Good Service".
Proof.
  unfold disrupted_lines, tube_df. cbn [rows].
  rewrite nodup_In, in_map_iff. split.
  - intros [row [Hname Hrow]].
    apply filter_In in Hrow. destruct Hrow as [Hrow Hst].
    apply filter_In in Hrow. destruct Hrow as [Hrow Htube].
    apply isin_In in Htube. apply negb_true_iff, String.eqb_neq in Hst.
    subst line. split; [exact Htube |]. exists row. auto.
  - intros [Htube [row [Hrow [Hname Hst]]]].
    exists row. split; [exact Hname |].
    apply filter_In. split.
    + apply filter_In. split; [exact Hrow |].
      apply isin_In. rewrite Hname. exact Htube.
    + apply negb_true_iff, String.eqb_neq. exact Hst.
Qed.




Lemma line_status_unique (labels : list string) (records : list LineStatus)
    (row : LineStatus) :
  NoDup (map line_name records) ->
  In row records ->
  line_status (mkFrame labels records) (line_name row) = Some (status row).
Proof.
  unfold line_status, line_row. cbn [rows].
  induction records as [| r rest IH]; intros Hnd Hin; [contradiction |].
  simpl in Hnd. inversion Hnd as [| n ns Hnotin Hrest]; subst.
  simpl. destruct Hin as [-> | Hin].
  - rewrite String.eqb_refl. reflexivity.
  - destruct (String.eqb_spec (line_name r) (line_name row)) as [Heq | _].
    + exfalso. apply Hnotin. rewrite Heq. apply in_map. exact Hin.
    + apply IH; assumption.
Qed.

(** X5.  When the refresh has one row per line, the summary and the map
    agree: a station counted as affected, having a disrupted tube line, is
    on the map and its worst status is not "Good Service", so its marker is
    not green. *)
Theorem affected_station_is_not_green (df : frame LineStatus) (station : Station) :
  NoDup (map line_name (rows df)) ->
  any_in (disrupted_lines df) (lines station) = true ->
  worst_status df (lines station) <> "Good Service"
  /\ station_marker df station = Some (circle_marker df station)
  /\ color (circle_marker df station) <> "green".
Proof.
  intros Hnd Hany. apply any_in_exists in Hany.
  destruct Hany as [line [Hline Hdis]].
  apply disrupted_lines_In in Hdis.
  destruct Hdis as [_ [row [Hrow [Hname Hst]]]].
  assert (Hstatus : line_status df line = Some (status row)).
  { destruct df as [labels records]. subst line.
    apply line_status_unique; assumption. }
  assert (Hworst : worst_status df (lines station) <> "Good Service").
  { unfold worst_status. rewrite scan_good. intros [_ Hall].
    apply Hst. apply Hall. apply observed_In. exists line. auto. }
  split; [exact Hworst |]. split.
  - unfold station_marker. destruct (lines station); [contradiction | reflexivity].
  - change (color (circle_marker df station))
      with (dict_get STATUS_COLOR (worst_status df (lines station)) "gray").
    rewrite STATUS_COLOR_green. exact Hworst.
Qed.

(** Victoria station is on the Victoria and District lines, both disrupted. *)
Lemma affected_station_is_not_green_witness :
  NoDup (map line_name (rows Sample.df))
  /\ any_in (disrupted_lines Sample.df) (lines Sample.victoria) = true
  /\ color (circle_marker Sample.df Sample.victoria) <> "green".
Proof.
  assert (Hnd : NoDup (map line_name (rows Sample.df))).
  { change (map line_name (rows Sample.df))
      with (nodup string_dec (map line_name (rows Sample.df))).
    apply NoDup_nodup. }
  split; [exact Hnd |]. split; [reflexivity |].
  exact (proj2 (proj2 (affected_station_is_not_green Sample.df Sample.victoria
                         Hnd eq_refl))).
Defined.

(** ** Properties of the filters, the selected lines and the alerts *)

Lemma unique_after_In (seen cells : list string) (cell : string) :
  In cell (unique_after seen cells) <-> In cell cells /\ ~ In cell seen.
Proof.
  revert seen.
  induction cells as [| c rest IH]; intros seen; simpl.
  - split; [intros [] | intros [[] _]].
  - destruct (isin c seen) eqn:Hseen.
    + apply isin_In in Hseen. rewrite IH. split.
      * intros [Hin Hnot]. auto.
      * intros [[<- | Hin] Hnot]; [contradiction | auto].
    + assert (Hc : ~ In c seen).
      { intros Hin. apply isin_In in Hin. rewrite Hin in Hseen. discriminate. }
      simpl. rewrite IH. simpl. split.
      * intros [<- | [Hin Hnot]]; [auto | split; [auto | tauto]].
      * intros [[<- | Hin] Hnot]; [auto |].
        destruct (string_dec c cell) as [-> | Hne]; [auto |].
        right. split; [exact Hin |]. intros [Heq | Hs]; contradiction.
Qed.

Lemma unique_after_NoDup (seen cells : list string) :
  NoDup (unique_after seen cells).
Proof.
  revert seen.
  induction cells as [| c rest IH]; intros seen; simpl; [constructor |].
  destruct (isin c seen); [apply IH |].
  constructor; [| apply IH].
  rewrite unique_after_In. intros [_ Hnot]. apply Hnot. left. reflexivity.
Qed.

Lemma status_options_In (df : frame LineStatus) (st : string) :
  In st (status_options df) <-> exists row, In row (rows df) /\ status row = st.
Proof.
  unfold status_options, unique. rewrite unique_after_In, in_map_iff. split.
  - intros [[row [Hst Hrow]] _]. exists row. auto.
  - intros [row [Hrow Hst]]. split; [exists row; auto | intros []].
Qed.

(** X6.  The status multiselect offers each status of the refresh once, and
    with the selections the page starts from, no line and every status, the
    filtered frame is the whole refresh. *)
Theorem default_filter_keeps_all (df : frame LineStatus) :
  NoDup (status_options df)
  /\ (forall st, In st (status_options df)
                 <-> exists row, In row (rows df) /\ status row = st)
  /\ filtered_df df [] (status_options df) = mkFrame (columns df) (rows df).
Proof.
  split; [apply unique_after_NoDup |]. split; [apply status_options_In |].
  unfold filtered_df. f_equal.
  assert (Hall : forall row, In row (rows df) ->
                             filter_mask [] (status_options df) row = true).
  { intros row Hrow. unfold filter_mask. simpl. apply isin_In.
    apply status_options_In. exists row. auto. }
  induction (rows df) as [| row rest IH]; [reflexivity |].
  simpl. rewrite (Hall row (or_introl eq_refl)). f_equal.
  apply IH. intros r Hr. apply Hall. right. exact Hr.
Qed.

Lemma disruptions_filtered (df : frame LineStatus)
    (selected_lines status_filter : list string) (row : LineStatus) :
  In row (disruptions (filtered_df df selected_lines status_filter))
  <-> In row (rows df)
      /\ filter_mask selected_lines status_filter row = true
      /\ status row <> "Good Service".
Proof.
  unfold disruptions, filtered_df. cbn [rows]. rewrite !filter_In.
  rewrite negb_true_iff, String.eqb_neq. tauto.
Qed.

(** X7.  The alerts section is never empty.  It shows the single banner
    "All selected lines are running with Good Service" exactly when no row
    that passes the filters is disrupted, and otherwise one warning per
    disrupted row that passes them.  In particular, with no status selected
    it reports good service whatever the refresh holds. *)
Theorem alerts_follow_the_filters (df : frame LineStatus)
    (selected_lines status_filter : list string) :
  let filtered := filtered_df df selected_lines status_filter in
  let all_good := st_success "✅ All selected lines are running with Good Service." in
  (In all_good (disruption_alerts filtered)
   <-> forall row, In row (rows df) ->
                   filter_mask selected_lines status_filter row = true ->
                   status row = "Good Service")
  /\ List.length (disruption_alerts filtered)
     = Nat.max 1 (List.length (disruptions filtered))
  /\ disruption_alerts (filtered_df df selected_lines []) = [all_good].
Proof.
  intros filtered all_good. split; [| split].
  - unfold disruption_alerts.
    destruct (disruptions filtered) as [| r rest] eqn:Hd.
    + split; [| intros _; left; reflexivity].
      intros _ row Hrow Hmask.
      destruct (String.eqb_spec (status row) "Good Service") as [Hg | Hne];
        [exact Hg |].
      assert (Hin : In row (disruptions filtered))
        by (apply disruptions_filtered; auto).
      rewrite Hd in Hin. contradiction.
    + split.
      * intros Hin. apply in_map_iff in Hin.
        destruct Hin as [x [Hx _]]. discriminate Hx.
      * intros Hall. exfalso.
        assert (Hin : In r (disruptions filtered)) by (rewrite Hd; left; reflexivity).
        apply disruptions_filtered in Hin. destruct Hin as [Hrow [Hmask Hne]].
        apply Hne. exact (Hall r Hrow Hmask).
  - unfold disruption_alerts.
    destruct (disruptions filtered) as [| r rest]; [reflexivity |].
    rewrite length_map. simpl. reflexivity.
  - unfold disruption_alerts, disruptions, filtered_df. cbn [rows].
    assert (Hnone : forall l,
               filter (filter_mask selected_lines []) l = []).
    { induction l as [| r rest IH]; [reflexivity |]. simpl.
      unfold filter_mask at 1. simpl. rewrite andb_false_r. exact IH. }
    rewrite Hnone. reflexivity.
Qed.



(** ** Further properties of the fetchers *)

Lemma collect_map {A B : Type} (f : A -> res B) (g : A -> B) (xs : list A) :
  (forall x, In x xs -> f x = Ok (g x)) -> collect f xs = Ok (map g xs).
Proof.
  induction xs as [| x rest IH]; intros Hall; [reflexivity |].
  simpl. rewrite (Hall x (or_introl eq_refl)). simpl.
  rewrite IH; [reflexivity |]. intros y Hy. apply Hall. right. exact Hy.
Qed.

Lemma forallb_false_exists {A : Type} (p : A -> bool) (xs : list A) :
  forallb p xs = false -> exists x, In x xs /\ p x = false.
Proof.
  induction xs as [| x rest IH]; [discriminate |].
  simpl. destruct (p x) eqn:Hx.
  - intros Hrest. destruct (IH Hrest) as [y [Hy Hf]].
    exists y. split; [right |]; assumption.
  - intros _. exists x. split; [left; reflexivity | exact Hx].
Qed.

Lemma bus_of_record_readable (record : json) :
  bus_readable record = true ->
  Fetcher.bus_of_record record = Ok (bus_row_of record).
Proof.
  unfold bus_readable, Fetcher.bus_of_record, bus_row_of.
  destruct record as [| b | z | x | s | items | fields]; try discriminate.
  simpl. destruct (lookup fields "name") as [name |] eqn:Hname; [| discriminate].
  destruct (lookup fields "lineStatuses") as [statuses |].
  - destruct (truthy statuses) eqn:Htruthy; simpl.
    + destruct statuses as [| b | z | x | s | items | fs]; try discriminate.
      destruct items as [| entry rest]; [discriminate |].
      destruct entry as [| b | z | x | s | items | entry]; try discriminate.
      simpl. destruct (lookup entry "statusSeverityDescription"); [| discriminate].
      intros _. reflexivity.
    + intros _.
      destruct statuses as [| b | z | x | s | items | fs]; try reflexivity.
      destruct items; [reflexivity | discriminate].
  - intros _. reflexivity.
Qed.

Lemma bus_of_record_unreadable (record : json) :
  bus_readable record = false -> raises (Fetcher.bus_of_record record) = true.
Proof.
  unfold bus_readable, Fetcher.bus_of_record.
  destruct record as [| b | z | x | s | items | fields]; try reflexivity.
  simpl. destruct (lookup fields "lineStatuses") as [statuses |].
  - destruct (truthy statuses) eqn:Htruthy; simpl.
    + destruct (lookup fields "name") as [name |].
      * destruct statuses as [| b | z | x | s | items | fs];
          try reflexivity; try discriminate.
        -- destruct s; [discriminate | reflexivity].
        -- destruct items as [| entry rest]; [discriminate |].
           destruct entry as [| b | z | x | s | items | entry]; try reflexivity.
           simpl. destruct (lookup entry "statusSeverityDescription");
             [discriminate | reflexivity].
      * intros _.
        destruct (bind (first statuses)
                    (fun st0 => item st0 "statusSeverityDescription"));
          simpl; [| reflexivity].
        destruct (bind (first statuses) (fun st0 => get st0 "reason" (JStr "")));
          reflexivity.
    + destruct (lookup fields "name"); [discriminate | reflexivity].
  - simpl. destruct (lookup fields "name"); [discriminate | reflexivity].
Qed.

(** X9.  For a bus-status response that is a list of records: when every
    record is an object with a name whose line statuses are absent, empty or
    start with a described entry, the frame has one row per record, in
    order, a record without line statuses reading "Good Service" with an
    empty reason and an entry without reason reading an empty reason; when
    some record is not, the labelled empty frame is returned. *)
Theorem fetch_bus_disruptions_defaults (net : network) (api_key : option string)
    (code : Z) (records : list json) :
  net (Fetcher.bus_url api_key) = Response code (Some (JArr records)) ->
  (forallb bus_readable records = true ->
   Fetcher.fetch_bus_disruptions net api_key
   = DataFrame Fetcher.bus_columns (map bus_row_of records))
  /\ (forallb bus_readable records = false ->
      Fetcher.fetch_bus_disruptions net api_key
      = DataFrame_columns Fetcher.bus_columns)
  /\ (forall record,
        field record "lineStatuses" = JNull
        \/ field record "lineStatuses" = JArr [] ->
        bus_row_of record
        = Fetcher.mkBusRow (field record "name") (JStr "Good Service") (JStr "")).
Proof.
  intros Hnet.
  unfold Fetcher.fetch_bus_disruptions, Fetcher.fetch_bus_disruptions_try,
    requests_get.
  rewrite Hnet. simpl. split; [| split].
  - intros Hall. rewrite forallb_forall in Hall.
    rewrite (collect_map Fetcher.bus_of_record bus_row_of records);
      [reflexivity |].
    intros record Hin. apply bus_of_record_readable. exact (Hall record Hin).
  - intros Hsome. apply forallb_false_exists in Hsome.
    destruct Hsome as [record [Hin Hbad]].
    assert (Hraise : raises (collect Fetcher.bus_of_record records) = true)
      by exact (collect_raises Fetcher.bus_of_record records record Hin
                  (bus_of_record_unreadable record Hbad)).
    destruct (collect Fetcher.bus_of_record records); [discriminate | reflexivity].
  - intros record [Hnone | Hempty]; unfold bus_row_of.
    + rewrite Hnone. reflexivity.
    + rewrite Hempty. reflexivity.
Qed.

(** Four routes: with a reason, without a reason, without a status entry,
    and without the field. *)
Lemma fetch_bus_disruptions_defaults_witness :
  Fetcher.fetch_bus_disruptions
    (Buses.answering [Buses.diverted; Buses.delayed; Buses.quiet; Buses.bare]) None
  = DataFrame Fetcher.bus_columns
      [ Fetcher.mkBusRow (JStr "26") (JStr "Special Service")
                         (JStr "Route 26 is on diversion.");
        Fetcher.mkBusRow (JStr "73") (JStr "Minor Delays") (JStr "");
        Fetcher.mkBusRow (JStr "N5") (JStr "Good Service") (JStr "");
        Fetcher.mkBusRow (JStr "390") (JStr "Good Service") (JStr "") ].
Proof.
  exact (proj1 (fetch_bus_disruptions_defaults
                  (Buses.answering
                     [Buses.diverted; Buses.delayed; Buses.quiet; Buses.bare])
                  None 200
                  [Buses.diverted; Buses.delayed; Buses.quiet; Buses.bare]
                  eq_refl)
               eq_refl).
Defined.

Lemma DataFrame_rows {R : Type} (labels : list string) (records : list R) :
  rows (DataFrame labels records) = records
  /\ (records <> [] -> columns (DataFrame labels records) = labels)
  /\ (records = [] -> columns (DataFrame labels records) = []).
Proof.
  destruct records as [| r rest]; simpl; repeat split; auto.
  - intros Hne. exfalso. apply Hne. reflexivity.
  - discriminate.
Qed.

(** X10.  [fetch_stations] reads the body of a 200 answer only: any other
    status gives a frame without rows and without columns, whatever the
    body.  Nothing is caught: a request that raises and a 200 answer that
    is not JSON raise out of the function.  A frame with rows comes from a
    200 answer with a JSON body and carries the five station columns. *)
Theorem fetch_stations_failures (net : network) (api_key : option string) :
  (forall code body,
      net (Fetcher.stations_url api_key "tube") = Response code body ->
      code <> 200%Z ->
      Fetcher.fetch_stations net api_key = Ok (mkFrame [] []))
  /\ (net (Fetcher.stations_url api_key "tube") = Unreachable ->
      Fetcher.fetch_stations net api_key = Raise ConnectionError)
  /\ (net (Fetcher.stations_url api_key "tube") = Response 200 None ->
      Fetcher.fetch_stations net api_key = Raise JSONDecodeError)
  /\ (forall df,
        Fetcher.fetch_stations net api_key = Ok df ->
        rows df <> [] ->
        columns df = Fetcher.station_columns
        /\ exists data,
             net (Fetcher.stations_url api_key "tube") = Response 200 (Some data)).
Proof.
  unfold Fetcher.fetch_stations, Fetcher.modes. simpl collect.
  unfold Fetcher.stations_of_mode, requests_get.
  split; [| split; [| split]].
  - intros code body Hnet Hcode. rewrite Hnet. simpl.
    apply Z.eqb_neq in Hcode. rewrite Hcode. reflexivity.
  - intros Hnet. rewrite Hnet. reflexivity.
  - intros Hnet. rewrite Hnet. reflexivity.
  - intros df.
    destruct (net (Fetcher.stations_url api_key "tube")) as [| code body];
      [discriminate |].
    simpl. destruct (Z.eqb_spec code 200) as [-> | Hcode]; simpl.
    + destruct body as [data |]; [| discriminate]. simpl.
      destruct (bind (get data "stopPoints" (JArr []))
                  (fun stops =>
                     bind (iter stops)
                       (fun stops0 =>
                          bind (collect Fetcher.station_of_stop stops0)
                            (fun kept_rows => Ok (Fetcher.appended kept_rows)))))
        as [found |] eqn:Hfound; [| discriminate].
      simpl. intros Hdf Hrows. injection Hdf as <-.
      destruct (DataFrame_rows Fetcher.station_columns (found ++ []))
        as [Hr [Hc _]].
      rewrite Hr in Hrows. split; [exact (Hc Hrows) |].
      exists data. reflexivity.
    + intros Hdf Hrows. injection Hdf as <-. exfalso. apply Hrows. reflexivity.
Qed.

(** A 404 with a JSON error body, and a 200 with one metro station. *)
Lemma fetch_stations_failures_witness :
  Fetcher.fetch_stations
    (fun _ => Response 404 (Some (JObj [("message", JStr "Not found")]))) None
  = Ok (mkFrame [] [])
  /\ columns (DataFrame Fetcher.station_columns (survivors [StopPoints.bank]))
     = Fetcher.station_columns.
Proof.
  split.
  - apply (proj1 (fetch_stations_failures
                    (fun _ => Response 404 (Some (JObj [("message", JStr "Not found")])))
                    None)
                 404%Z (Some (JObj [("message", JStr "Not found")])) eq_refl).
    discriminate.
  - refine (proj1 (proj2 (proj2 (proj2 (fetch_stations_failures
                    (StopPoints.answering [StopPoints.bank]) None))) _ eq_refl _)).
    discriminate.
Defined.

(** X11.  Whatever the upstream answers, [fetch_disruptions] returns either
    a frame without rows, or a frame with the three line columns whose rows
    are the records of the response, one row per record and in order. *)
Theorem fetch_disruptions_frame (net : network) :
  (rows (Fetcher.fetch_disruptions net) = []
   /\ (columns (Fetcher.fetch_disruptions net) = []
       \/ columns (Fetcher.fetch_disruptions net) = Fetcher.line_columns))
  \/ (columns (Fetcher.fetch_disruptions net) = Fetcher.line_columns
      /\ exists code data records,
           net Fetcher.disruptions_url = Response code (Some data)
           /\ iter data = Ok records
           /\ Forall2 (fun record row => Fetcher.line_of_record record = Ok row)
                      records (rows (Fetcher.fetch_disruptions net))).
Proof.
  unfold Fetcher.fetch_disruptions, Fetcher.fetch_disruptions_try, requests_get.
  destruct (net Fetcher.disruptions_url) as [| code body] eqn:Hnet;
    [left; split; [reflexivity | right; reflexivity] |].
  simpl. destruct body as [data |];
    [| left; split; [reflexivity | right; reflexivity]].
  simpl. destruct (iter data) as [records |] eqn:Hiter;
    [| left; split; [reflexivity | right; reflexivity]].
  simpl.
  destruct (collect Fetcher.line_of_record records) as [found |] eqn:Hfound;
    [| left; split; [reflexivity | right; reflexivity]].
  simpl. destruct found as [| row more].
  - left. split; [reflexivity | left; reflexivity].
  - right. split; [reflexivity |].
    exists code, data, records.
    split; [first [exact Hnet | reflexivity] |].
    split; [first [exact Hiter | reflexivity] |].
    simpl. clear Hnet Hiter. revert Hfound.
    generalize (row :: more) as found. clear row more.
    induction records as [| record rest IH]; intros found Hfound.
    + injection Hfound as <-. constructor.
    + simpl in Hfound.
      destruct (Fetcher.line_of_record record) as [r |] eqn:Hr; [| discriminate].
      simpl in Hfound.
      destruct (collect Fetcher.line_of_record rest) as [rs |]; [| discriminate].
      injection Hfound as <-. constructor; [exact Hr | apply IH; reflexivity].
Qed.

(** ** Further properties of the journey planner *)




Lemma naptan_eqb_neq (a b : option string) : a <> b -> naptan_eqb a b = false.
Proof.
  destruct a as [x |], b as [y |]; simpl; intros Hne; try reflexivity.
  - apply String.eqb_neq. intros ->. apply Hne. reflexivity.
  - exfalso. apply Hne. reflexivity.
Qed.

(** X13.  With two stations chosen that resolve differently, the planner
    sends exactly one request, to the journey URL of the two identifiers.
    A request that raises, or a 200 answer that is not JSON, ends in the
    "API request failed" message; any other status than 200 ends in the
    "Error fetching journey data" message without the body being read; a
    200 answer with no journeys ends in the "No journeys found" message. *)
Theorem planner_failure_messages `{Clock} (net : network) (api_key : option string)
    (stations_df : frame Station) (start_name end_name : string) :
  chosen (Some start_name) = true ->
  chosen (Some end_name) = true ->
  get_naptan stations_df start_name <> get_naptan stations_df end_name ->
  let url := journey_url api_key (get_naptan stations_df start_name)
                         (get_naptan stations_df end_name) in
  let run := journey_planner net api_key stations_df
                             (Some start_name) (Some end_name) in
  requested run = [url]
  /\ (net url = Unreachable -> shown run = [RequestFailed ConnectionError])
  /\ (net url = Response 200 None -> shown run = [RequestFailed JSONDecodeError])
  /\ (forall code body,
        net url = Response code body -> code <> 200%Z ->
        shown run = [Error "Error fetching journey data from TfL API."])
  /\ (forall data journeys,
        net url = Response 200 (Some data) ->
        get data "journeys" (JArr []) = Ok journeys ->
        truthy journeys = false ->
        shown run = [Info "No journeys found for these stations."]).
Proof.
  intros Hstart Hend Hdiff url run.
  assert (Hrun : run = plan_journey net api_key (get_naptan stations_df start_name)
                                    (get_naptan stations_df end_name)).
  { unfold run, journey_planner.
    rewrite Hstart, Hend, (naptan_eqb_neq _ _ Hdiff). reflexivity. }
  rewrite Hrun. unfold plan_journey, requests_get. fold url.
  split; [| split; [| split; [| split]]].
  - destruct (net url) as [| code body]; [reflexivity |].
    destruct (show_journeys (Response code body)) as [out [u | e]]; reflexivity.
  - intros Hnet. rewrite Hnet. reflexivity.
  - intros Hnet. rewrite Hnet. reflexivity.
  - intros code body Hnet Hcode. rewrite Hnet. unfold show_journeys. simpl.
    apply Z.eqb_neq in Hcode. rewrite Hcode. reflexivity.
  - intros data journeys Hnet Hget Hfalsy. rewrite Hnet.
    unfold show_journeys. simpl. rewrite Hget, Hfalsy. reflexivity.
Qed.

(** Oxford Circus to Westminster while the journey API answers 429. *)
Lemma planner_failure_messages_witness :
  shown (@journey_planner IsoClock.clock
           (fun _ => Response 429 (Some (JObj [("message", JStr "Too many requests")])))
           (Some "key") Sample.stations_df
           (Some "Oxford Circus Underground Station")
           (Some "Westminster Underground Station"))
  = [Error "Error fetching journey data from TfL API."].
Proof.
  apply (proj1 (proj2 (proj2 (proj2
           (@planner_failure_messages IsoClock.clock
              (fun _ => Response 429 (Some (JObj [("message", JStr "Too many requests")])))
              (Some "key") Sample.stations_df
              "Oxford Circus Underground Station" "Westminster Underground Station"
              eq_refl eq_refl ltac:(discriminate)))))
         429%Z (Some (JObj [("message", JStr "Too many requests")])) eq_refl).
  discriminate.
Defined.

Lemma headings_app (a b : list ui_event) :
  headings (a ++ b) = headings a ++ headings b.
Proof. unfold headings. apply flat_map_app. Qed.

Lemma headings_bullets (bullets : list leg_line) :
  headings (map Bullet bullets) = [].
Proof. induction bullets as [| b rest IH]; [reflexivity | exact IH]. Qed.

Lemma quiet_bullets (bullets : list leg_line) :
  forallb quiet (map Bullet bullets) = true.
Proof. induction bullets as [| b rest IH]; [reflexivity | exact IH]. Qed.

Section Rendering.

Context `{Clock}.

Lemma render_journey_shape (i : nat) (journey : json) :
  forallb quiet (fst (render_journey i journey)) = true
  /\ (headings (fst (render_journey i journey)) = [i + 1]
      \/ (fst (render_journey i journey) = []
          /\ raises (snd (render_journey i journey)) = true))
  /\ (raises (snd (render_journey i journey)) = false ->
      headings (fst (render_journey i journey)) = [i + 1]).
Proof.
  unfold render_journey.
  destruct (get journey "duration" (JStr "Unknown")) as [duration |]; simpl;
    [| split; [reflexivity | split; [right; split; reflexivity | discriminate]]].
  destruct (bind (get journey "legs" (JArr [])) (fun legs => iter legs))
    as [legs |]; simpl;
    [| split; [reflexivity | split; [left; reflexivity | discriminate]]].
  destruct (render_legs legs []) as [bullets r].
  destruct r as [times | e]; simpl.
  - rewrite forallb_app, quiet_bullets, headings_app, headings_bullets. simpl.
    assert (Htail : forallb quiet
                      (match times with [] => [] | _ :: _ => [ModeSummary times] end
                       ++ [Rule]) = true
                    /\ headings
                         (match times with [] => [] | _ :: _ => [ModeSummary times] end
                          ++ [Rule]) = [])
      by (destruct times; split; reflexivity).
    destruct Htail as [Hq Hh]. rewrite Hq, Hh.
    split; [reflexivity | split; [left; reflexivity | reflexivity]].
  - rewrite quiet_bullets, headings_bullets.
    split; [reflexivity | split; [left; reflexivity | discriminate]].
Qed.

Lemma render_journeys_shape (journeys : list json) (i : nat) :
  exists k,
    headings (fst (render_journeys i journeys)) = seq (i + 1) k
    /\ k <= List.length journeys
    /\ (raises (snd (render_journeys i journeys)) = false ->
        k = List.length journeys)
    /\ forallb quiet (fst (render_journeys i journeys)) = true.
Proof.
  revert i.
  induction journeys as [| journey rest IH]; intros i.
  - exists 0. simpl. repeat split; auto.
  - simpl.
    destruct (render_journey_shape i journey) as [Hquiet [Hhead Hok]].
    destruct (render_journey i journey) as [out r]. simpl in *.
    destruct r as [u | e].
    + destruct (IH (S i)) as [k [Hk [Hle [Hall Hq]]]].
      destruct (render_journeys (S i) rest) as [more r']. simpl in *.
      exists (S k). rewrite headings_app, (Hok eq_refl), Hk, forallb_app, Hquiet, Hq.
      replace (S i + 1) with (S (i + 1)) by lia.
      repeat split; try reflexivity; try lia.
      intros Hr. rewrite (Hall Hr). reflexivity.
    + simpl. destruct Hhead as [Hone | [Hnil _]].
      * exists 1. rewrite Hone.
        repeat split; try exact Hquiet; try lia; try discriminate.
      * exists 0. rewrite Hnil.
        repeat split; try lia; try discriminate.
Qed.

(** X14.  Whatever the journey API answers, what the planner shows for a
    request is a run of headings, bullets, summaries and rules, or the one
    "No journeys found" notice, followed by at most one failure message,
    which comes last: what was printed before an exception stays on the
    page.  The options printed are numbered 1, 2, 3, ... without a gap. *)
Theorem planner_output_shape (net : network)
    (api_key start_naptan end_naptan : option string) :
  exists out tail k,
    shown (plan_journey net api_key start_naptan end_naptan) = out ++ tail
    /\ forallb quiet out = true
    /\ (tail = []
        \/ (exists e, tail = [RequestFailed e])
        \/ tail = [Error "Error fetching journey data from TfL API."])
    /\ headings out = seq 1 k.
Proof.
  unfold plan_journey, requests_get.
  destruct (net (journey_url api_key start_naptan end_naptan)) as [| code body].
  { exists [], [RequestFailed ConnectionError], 0.
    repeat split; try reflexivity. right. left. eexists. reflexivity. }
  unfold show_journeys. simpl status_code_of.
  destruct (Z.eqb code 200).
  2:{ exists [], [Error "Error fetching journey data from TfL API."], 0.
      repeat split; try reflexivity. right. right. reflexivity. }
  destruct (bind (response_json (Response code body))
              (fun data => get data "journeys" (JArr []))) as [journeys | e].
  2:{ exists [], [RequestFailed e], 0.
      repeat split; try reflexivity. right. left. eexists. reflexivity. }
  destruct (truthy journeys).
  2:{ exists [Info "No journeys found for these stations."], [], 0.
      repeat split; try reflexivity. left. reflexivity. }
  destruct (iter journeys) as [js | e].
  2:{ exists [], [RequestFailed e], 0.
      repeat split; try reflexivity. right. left. eexists. reflexivity. }
  destruct (render_journeys_shape js 0) as [k [Hk [_ [_ Hq]]]].
  destruct (render_journeys 0 js) as [out r]. simpl in *.
  destruct r as [u | e].
  - exists out, [], k. rewrite app_nil_r.
    repeat split; try assumption. left. reflexivity.
  - exists out, [RequestFailed e], k.
    repeat split; try assumption. right. left. eexists. reflexivity.
Qed.

Lemma render_legs_bullets (legs : list json) (times : list (string * Z)) :
  forallb api_leg legs = true ->
  exists bullets,
    render_legs legs times = (bullets, Ok (summed legs times))
    /\ map mode bullets = map mode_of legs.
Proof.
  revert times.
  induction legs as [| leg rest IH]; intros times Hall.
  - exists []. split; reflexivity.
  - simpl in Hall. apply andb_true_iff in Hall. destruct Hall as [Hleg Hrest].
    destruct (render_leg_api leg Hleg) as [bullet [Hbullet Hmode]].
    destruct (IH (add_minutes times (mode_of leg) leg) Hrest) as [bullets [Hrun Hmodes]].
    exists (bullet :: bullets). split.
    + simpl. rewrite Hbullet. cbv beta iota. rewrite Hmode, Hrun. reflexivity.
    + simpl. rewrite Hmode, Hmodes. reflexivity.
Qed.

Lemma summed_nil (legs : list json) :
  summed legs [] = [] <-> existsb timed legs = false.
Proof.
  split.
  - intros Hnil. destruct (existsb timed legs) eqn:Hsome; [| reflexivity].
    apply existsb_exists in Hsome. destruct Hsome as [leg [Hin Htimed]].
    assert (Hkey : In (mode_of leg) (map fst (summed legs [])))
      by (apply summed_keys; right; exists leg; auto).
    rewrite Hnil in Hkey. contradiction.
  - intros Hnone. destruct (summed legs []) as [| [m t] more] eqn:Hs; [reflexivity |].
    assert (Hkey : In m (map fst (summed legs [])))
      by (rewrite Hs; left; reflexivity).
    apply summed_keys in Hkey. destruct Hkey as [[] | [leg [Hin [_ Htimed]]]].
    assert (Hsome : existsb timed legs = true)
      by (apply existsb_exists; exists leg; auto).
    rewrite Hsome in Hnone. discriminate.
Qed.

(** X15.  A journey whose legs have the shape of the journey API is printed
    without an exception as its heading, one bullet per leg in order, each
    under the mode of its leg, the mode summary, and a rule; the summary
    line is left out exactly when no leg of the journey could be timed. *)
Theorem journey_view (i : nat) (journey : json) (legs : list json) :
  get journey "legs" (JArr []) = Ok (JArr legs) ->
  forallb api_leg legs = true ->
  exists duration bullets times,
    render_journey i journey
    = (Heading (i + 1) duration :: map Bullet bullets
         ++ (if existsb timed legs then [ModeSummary times] else [])
         ++ [Rule],
       Ok tt)
    /\ map mode bullets = map mode_of legs
    /\ mode_times journey = Ok times.
Proof.
  intros Hlegs Hall.
  destruct (render_legs_bullets legs [] Hall) as [bullets [Hrun Hmodes]].
  assert (Hobj : exists duration, get journey "duration" (JStr "Unknown") = Ok duration).
  { destruct journey; try discriminate. eexists. reflexivity. }
  destruct Hobj as [duration Hduration].
  exists duration, bullets, (summed legs []).
  split; [| split; [exact Hmodes |]].
  - unfold render_journey. rewrite Hduration, Hlegs. simpl. rewrite Hrun.
    destruct (summed legs []) as [| entry more] eqn:Hs.
    + apply summed_nil in Hs. rewrite Hs. reflexivity.
    + destruct (existsb timed legs) eqn:Hsome; [reflexivity |].
      apply summed_nil in Hsome. rewrite Hsome in Hs. discriminate.
  - unfold mode_times. rewrite Hlegs. simpl. rewrite Hrun. reflexivity.
Qed.

End Rendering.

(** The journey whose walk cannot be timed still prints both legs. *)
Lemma journey_view_witness :
  exists duration bullets times,
    @render_journey IsoClock.clock 0 Journeys.unparsable_walk
    = (Heading 1 duration :: map Bullet bullets ++ [ModeSummary times] ++ [Rule],
       Ok tt)
    /\ map mode bullets = ["Tube"; "Walking"].
Proof.
  destruct (@journey_view IsoClock.clock 0 Journeys.unparsable_walk
              [ Journeys.leg "tube" "2024-05-01T23:55:00" "2024-05-02T00:07:00";
                Journeys.leg "walking" "soon" "2024-05-02T00:15:00" ]
              eq_refl eq_refl)
    as [duration [bullets [times [Hview [Hmodes _]]]]].
  exists duration, bullets, times. split; [exact Hview | exact Hmodes].
Defined.

(** ** Properties of the mode chart and of the status colours *)









(** X17.  The bus table and the station map know the same statuses: a
    status is left without a style in the table exactly when the map draws
    it in the fallback colour, gray. *)
Theorem styled_statuses_agree (st : string) :
  color_status st = "" <-> dict_get STATUS_COLOR st "gray" = "gray".
Proof.
  unfold color_status, STATUS_COLOR. cbn [dict_get].
  rewrite (String.eqb_sym st "Good Service"), (String.eqb_sym st "Minor Delays"),
    (String.eqb_sym st "Severe Delays"), (String.eqb_sym st "Part Closure").
  by_key "Good Service" st. by_key "Minor Delays" st.
  by_key "Severe Delays" st. by_key "Part Closure" st.
  split; reflexivity.
Qed.

(** ** Order of the mode summary, and the page on an empty refresh *)

Lemma unique_after_seen (seen seen' cells : list string) :
  (forall cell, In cell seen <-> In cell seen') ->
  unique_after seen cells = unique_after seen' cells.
Proof.
  revert seen seen'.
  induction cells as [| c rest IH]; intros seen seen' Hsame; [reflexivity |].
  simpl.
  assert (Hisin : isin c seen = isin c seen').
  { destruct (isin c seen) eqn:Hs, (isin c seen') eqn:Hs'; try reflexivity.
    - apply isin_In, Hsame, isin_In in Hs. rewrite Hs in Hs'. discriminate.
    - apply isin_In, Hsame, isin_In in Hs'. rewrite Hs' in Hs. discriminate. }
  rewrite Hisin. destruct (isin c seen').
  - apply IH. exact Hsame.
  - f_equal. apply IH. intros cell. simpl. rewrite Hsame. reflexivity.
Qed.

Lemma dict_set_keys_order {V : Type} (d : list (string * V)) (key : string)
    (value : V) :
  map fst (dict_set d key value)
  = if isin key (map fst d) then map fst d else map fst d ++ [key].
Proof.
  induction d as [| [k v] rest IH]; [reflexivity |].
  simpl. rewrite (String.eqb_sym key k).
  destruct (String.eqb k key); simpl; [reflexivity |].
  rewrite IH. destruct (isin key (map fst rest)); reflexivity.
Qed.

Section SummaryOrder.

Context `{Clock}.

Lemma summed_keys_order (legs : list json) (times : list (string * Z)) :
  map fst (summed legs times)
  = map fst times
    ++ unique_after (map fst times) (map mode_of (filter timed legs)).
Proof.
  revert times.
  induction legs as [| leg rest IH]; intros times.
  - simpl. rewrite app_nil_r. reflexivity.
  - change (summed (leg :: rest) times)
      with (summed rest (add_minutes times (mode_of leg) leg)).
    rewrite IH. unfold add_minutes, timed. simpl filter.
    destruct (leg_minutes leg) as [minutes | e]; simpl; [| reflexivity].
    rewrite dict_set_keys_order.
    destruct (isin (mode_of leg) (map fst times)); [reflexivity |].
    rewrite <- app_assoc. simpl. f_equal. f_equal.
    apply unique_after_seen. intros cell. rewrite in_app_iff. simpl. tauto.
Qed.

(** X18.  The mode summary of a journey whose legs have the shape of the
    journey API lists the modes in the order in which each first occurs
    among the legs that could be timed. *)
Theorem mode_summary_order (journey : json) (legs : list json) :
  get journey "legs" (JArr []) = Ok (JArr legs) ->
  forallb api_leg legs = true ->
  exists times,
    mode_times journey = Ok times
    /\ map fst times = unique (map mode_of (filter timed legs)).
Proof.
  intros Hlegs Hall. exists (summed legs []). split.
  - unfold mode_times. rewrite Hlegs. simpl. apply render_legs_api. exact Hall.
  - rewrite summed_keys_order. reflexivity.
Qed.

End SummaryOrder.

(** Bus, bus, walk: "Bus" comes first and once. *)
Lemma mode_summary_order_witness :
  exists times,
    @mode_times IsoClock.clock Journeys.bus_bus_walk = Ok times
    /\ map fst times = ["Bus"; "Walking"].
Proof.
  destruct (@mode_summary_order IsoClock.clock Journeys.bus_bus_walk
              [ Journeys.leg "bus" "2024-05-01T10:00:00" "2024-05-01T10:10:00";
                Journeys.leg "bus" "2024-05-01T10:10:00" "2024-05-01T10:25:00";
                Journeys.leg "walking" "2024-05-01T10:25:00" "2024-05-01T10:30:00" ]
              eq_refl eq_refl)
    as [times [Htimes Hkeys]].
  exists times. split; [exact Htimes | exact Hkeys].
Defined.


